(** * Stake request reconciliation: [StakeRequestHandler.persist]

    A shallow embedding of [src/handlers/StakeRequestHandler.ts] and of
    [src/common/Utils.ts], with the properties of the reconciliation
    policy and of the helpers proved about the embedding.

    Layout: the two libraries the handler calls (bignumber.js, web3-utils)
    and how a promise settles, the entity and the raw event, traces and
    asynchronous computations, the record store, the handler, sample data,
    and last the lemmas and the theorems. *)

From Stdlib Require Import ZArith Lia Ascii String List.
From stdpp Require Import base option list gmap strings.

Local Open Scope string_scope.
Local Open Scope list_scope.
Local Open Scope Z_scope.

(** ** bignumber.js values *)

Module BigNumber.

(** A value of the arbitrary-precision type the handler builds with
    [new BigNumber(...)]: not-a-number, a signed infinity, or the finite
    decimal [coefficient * 10 ^ exponent]. *)
Inductive t : Type :=
| NaN
| Infinity (negative : bool)
| Finite (coefficient exponent : Z).

(** Both coefficients brought to the smaller of the two exponents. *)
Definition align (c1 e1 c2 e2 : Z) : Z * Z :=
  let m := Z.min e1 e2 in
  (c1 * 10 ^ (e1 - m), c2 * 10 ^ (e2 - m)).

(** [comparedTo]: 1, -1 or 0 as [comparison]; [None] is the library's
    [null], returned when either operand is NaN. *)
Definition comparedTo (x y : t) : option comparison :=
  match x, y with
  | NaN, _ | _, NaN => None
  | Infinity nx, Infinity ny =>
      Some (match nx, ny with
            | true, false => Lt
            | false, true => Gt
            | _, _ => Eq
            end)
  | Infinity nx, Finite _ _ => Some (if nx then Lt else Gt)
  | Finite _ _, Infinity ny => Some (if ny then Gt else Lt)
  | Finite c1 e1, Finite c2 e2 =>
      let '(a, b) := align c1 e1 c2 e2 in Some (a ?= b)
  end.

(** The argument of a method as JavaScript passes it: [None] is
    [undefined], which the library's constructor turns into NaN. *)
Definition ofArgument (v : option t) : t :=
  match v with
  | Some y => y
  | None => NaN
  end.

(** [x.gt(y)]: true only when the comparison is defined and positive. *)
Definition gt (x : t) (y : option t) : bool :=
  match comparedTo x (ofArgument y) with
  | Some Gt => true
  | _ => false
  end.

(** [x.lte(y)]: true when the comparison is defined and not positive. *)
Definition lte (x : t) (y : option t) : bool :=
  match comparedTo x (ofArgument y) with
  | Some Lt | Some Eq => true
  | _ => false
  end.

(** *** Reading a string

    [new BigNumber(s)] for a string [s], with the library's default
    configuration, in which the constructor never throws: a string that
    is not numeric gives NaN. What follows reads the library's decimal
    notation (an optional minus sign; digits, with an optional point and
    optional digits after it, or a point and digits; an optional
    exponent [e], in either case, with an optional sign and digits) and
    the literals [Infinity], [-Infinity] and [NaN]. The
    library reads three more forms, which are given NaN here and which
    no run below feeds to the constructor: a literal with a [0x], [0o]
    or [0b] prefix, one with a leading plus sign, and one with white
    space around it. Nor is the configured exponent range kept, beyond
    which the library turns a value into an infinity or into zero. A
    stored value keeps no trailing zero in its coefficient, so equal
    finite values are the same term; the sign of zero, which no
    comparison observes, is not kept. The handler and the theorems about
    it take the constructor as a parameter and hold whatever it returns;
    this reading of it serves the runs on sample data. *)

Definition code (c : ascii) : Z := Z.of_N (N_of_ascii c).

Definition isDigit (c : ascii) : bool := (48 <=? code c) && (code c <=? 57).

Definition isZeroDigit (c : ascii) : bool := code c =? 48.

(** The longest prefix of characters satisfying [p], and the rest. *)
Fixpoint span (p : ascii -> bool) (l : list ascii)
  : list ascii * list ascii :=
  match l with
  | c :: rest =>
      if p c then let '(yes, no) := span p rest in (c :: yes, no)
      else ([], l)
  | [] => ([], [])
  end.

Definition digitsValue (l : list ascii) : Z :=
  fold_left (fun acc c => acc * 10 + (code c - 48)) l 0.

(** The decimal parts of a numeric string. *)
Record Decimal : Type := mkDecimal {
  negative : bool;
  intPart : list ascii;
  fracPart : list ascii;
  exp : Z
}.

(** The optional exponent suffix, up to the end of the string. *)
Definition exponentPart (l : list ascii) : option Z :=
  match l with
  | [] => Some 0
  | ("e"%char | "E"%char) :: rest =>
      let '(minus, rest') :=
        match rest with
        | "-"%char :: r => (true, r)
        | "+"%char :: r => (false, r)
        | _ => (false, rest)
        end in
      match span isDigit rest' with
      | ((_ :: _) as ds, []) =>
          Some ((if minus then -1 else 1) * digitsValue ds)
      | _ => None
      end
  | _ => None
  end.

Definition stripMinus (l : list ascii) : bool * list ascii :=
  match l with
  | "-"%char :: r => (true, r)
  | _ => (false, l)
  end.

(** The string split along the decimal notation, or [None] when it is
    not in that notation. *)
Definition readDecimal (s : string) : option Decimal :=
  let '(neg, body) := stripMinus (list_ascii_of_string s) in
  let '(ip, afterInt) := span isDigit body in
  let '(fp, afterFrac) :=
    match afterInt with
    | "."%char :: r => span isDigit r
    | _ => ([], afterInt)
    end in
  match ip ++ fp, exponentPart afterFrac with
  | _ :: _, Some e =>
      Some {| negative := neg; intPart := ip; fracPart := fp; exp := e |}
  | _, _ => None
  end.


Definition ofDecimal (d : Decimal) : t :=
  let digits := snd (span isZeroDigit (intPart d ++ fracPart d)) in
  let significant := rev (snd (span isZeroDigit (rev digits))) in
  match significant with
  | [] => Finite 0 0
  | _ :: _ =>
      let e := exp d - Z.of_nat (length (fracPart d))
               + Z.of_nat (length digits - length significant) in
      Finite ((if negative d then -1 else 1) * digitsValue significant) e
  end.

Definition ofString (s : string) : t :=
  match readDecimal s with
  | Some d => ofDecimal d
  | None =>
      let '(neg, body) := stripMinus (list_ascii_of_string s) in
      if decide (string_of_list_ascii body = "Infinity") then Infinity neg
      else NaN
  end.

End BigNumber.

(** ** Promises *)

(** Why a promise was rejected. *)
Inductive Failure : Type :=
| InvalidAddress (address : string)
| GetFailed (stakeRequestHash : string)
| SaveFailed (stakeRequestHash : string).

(** How a promise (or a call that may throw) settles. *)
Inductive Settled (A : Type) : Type :=
| Fulfilled (value : A)
| Rejected (reason : Failure).

Arguments Fulfilled {A} value.
Arguments Rejected {A} reason.

Definition isRejected {A} (s : Settled A) : bool :=
  match s with
  | Fulfilled _ => false
  | Rejected _ => true
  end.

(** ** web3-utils: checksummed addresses *)

(** Keccak-256, the hash [Web3Utils.sha3] computes: the state is 25 lanes
    of 64 bits, lane [(x, y)] at index [x + 5 * y]. *)
Module Keccak.

Definition mask64 : Z := 2 ^ 64 - 1.

Definition rotl (w n : Z) : Z :=
  Z.land (Z.lor (Z.shiftl w n) (Z.shiftr w (64 - n))) mask64.

Definition lane (a : list Z) (x y : nat) : Z :=
  nth ((x mod 5) + 5 * (y mod 5))%nat a 0.

Definition build (f : nat -> nat -> Z) : list Z :=
  map (fun i => f (i mod 5)%nat (i / 5)%nat) (seq 0 25).

Definition offsets : list Z :=
  [0; 1; 62; 28; 27; 36; 44; 6; 55; 20; 3; 10; 43; 25; 39;
   41; 45; 15; 21; 8; 18; 2; 61; 56; 14].

Definition roundConstants : list Z :=
  [0x0000000000000001; 0x0000000000008082; 0x800000000000808A;
   0x8000000080008000; 0x000000000000808B; 0x0000000080000001;
   0x8000000080008081; 0x8000000000008009; 0x000000000000008A;
   0x0000000000000088; 0x0000000080008009; 0x000000008000000A;
   0x000000008000808B; 0x800000000000008B; 0x8000000000008089;
   0x8000000000008003; 0x8000000000008002; 0x8000000000000080;
   0x000000000000800A; 0x800000008000000A; 0x8000000080008081;
   0x8000000000008080; 0x0000000080000001; 0x8000000080008008].

Definition theta (a : list Z) : list Z :=
  let c := map (fun x => fold_right Z.lxor 0 (map (lane a x) (seq 0 5)))
               (seq 0 5) in
  let d := map (fun x => Z.lxor (nth ((x + 4) mod 5)%nat c 0)
                           (rotl (nth ((x + 1) mod 5)%nat c 0) 1))
               (seq 0 5) in
  build (fun x y => Z.lxor (lane a x y) (nth x d 0)).

Definition rhoPi (a : list Z) : list Z :=
  build (fun x y =>
           let x0 := ((x + 3 * y) mod 5)%nat in
           rotl (lane a x0 x) (nth (x0 + 5 * x)%nat offsets 0)).

Definition chi (b : list Z) : list Z :=
  build (fun x y => Z.lxor (lane b x y)
                      (Z.ldiff (lane b (x + 2) y) (lane b (x + 1) y))).

Definition iota (rc : Z) (a : list Z) : list Z :=
  match a with
  | [] => []
  | w :: rest => Z.lxor w rc :: rest
  end.

Definition round (a : list Z) (rc : Z) : list Z :=
  iota rc (chi (rhoPi (theta a))).

Definition f1600 (a : list Z) : list Z := fold_left round roundConstants a.

(** Bytes absorbed per permutation at 256 bits of output. *)
Definition rate : nat := 136.

Definition xorByte (a : list Z) (pos : nat) (b : Z) : list Z :=
  let i := (pos / 8)%nat in
  <[i := Z.lxor (nth i a 0) (Z.shiftl b (8 * Z.of_nat (pos mod 8)))]> a.

Fixpoint absorb (a : list Z) (pos : nat) (bytes : list Z)
  : list Z * nat :=
  match bytes with
  | [] => (a, pos)
  | b :: rest =>
      let a' := xorByte a pos b in
      if (S pos =? rate)%nat then absorb (f1600 a') 0 rest
      else absorb a' (S pos) rest
  end.

Definition byteOf (a : list Z) (j : nat) : Z :=
  Z.land (Z.shiftr (nth (j / 8)%nat a 0) (8 * Z.of_nat (j mod 8))) 255.

(** The 32 bytes of the digest. *)
Definition keccak256 (bytes : list Z) : list Z :=
  let '(a, pos) := absorb (repeat 0 25) 0 bytes in
  let padded := xorByte (xorByte a pos 1) (rate - 1) 128 in
  map (byteOf (f1600 padded)) (seq 0 32).

End Keccak.

Module Web3Utils.

Definition code (c : ascii) : Z := Z.of_N (N_of_ascii c).

Definition isHexDigit (c : ascii) : bool :=
  let n := code c in
  ((48 <=? n) && (n <=? 57)) || ((97 <=? n) && (n <=? 102))
  || ((65 <=? n) && (n <=? 70)).

Definition toLowerCase (c : ascii) : ascii :=
  let n := code c in
  if (65 <=? n) && (n <=? 90) then ascii_of_N (Z.to_N (n + 32)) else c.

Definition toUpperCase (c : ascii) : ascii :=
  let n := code c in
  if (97 <=? n) && (n <=? 122) then ascii_of_N (Z.to_N (n - 32)) else c.

(** [replace(/^0x/i, '')]. *)
Definition stripHexPrefix (l : list ascii) : list ascii :=
  match l with
  | "0"%char :: ("x"%char | "X"%char) :: rest => rest
  | _ => l
  end.

(** [/^(0x)?[0-9a-f]{40}$/i]. *)
Definition isAddress (l : list ascii) : bool :=
  let digits := stripHexPrefix l in
  (length digits =? 40)%nat && forallb isHexDigit digits.

Definition sha3 (l : list ascii) : list Z := Keccak.keccak256 (map code l).

(** Hexadecimal digit [i] of the digest. *)
Definition nibble (hash : list Z) (i : nat) : Z :=
  let b := nth (i / 2)%nat hash 0 in
  if Nat.even i then Z.shiftr b 4 else Z.land b 15.

(** [Web3Utils.toChecksumAddress]: throws on a string that is not forty
    hexadecimal digits with an optional [0x]; otherwise lower-cases it
    and raises every letter whose digit of the hash is above 7. *)
Definition toChecksumAddress (address : string) : Settled string :=
  let l := list_ascii_of_string address in
  if isAddress l then
    let lower := stripHexPrefix (map toLowerCase l) in
    let addressHash := sha3 lower in
    Fulfilled
      (string_of_list_ascii
         ("0"%char :: "x"%char ::
          imap (fun i c =>
                  if 7 <? nibble addressHash i then toUpperCase c else c)
               lower))
  else Rejected (InvalidAddress address).

End Web3Utils.

(** ** The entity and the raw event *)

(** [models/StakeRequest]: the constructor takes the request hash and the
    nine fields the handler passes; [messageHash] is not passed by the
    handler and stays [undefined]. [blockNumber] is read by the handler
    through a non-null assertion, so it can be absent on a stored record. *)
Module StakeRequest.

Record t : Type := mk {
  stakeRequestHash : string;
  amount : BigNumber.t;
  beneficiary : string;
  gasPrice : BigNumber.t;
  gasLimit : BigNumber.t;
  nonce : BigNumber.t;
  gateway : string;
  staker : string;
  stakerProxy : string;
  blockNumber : option BigNumber.t;
  messageHash : option string
}.

(** [new StakeRequest(hash, amount, beneficiary, gasPrice, gasLimit,
    nonce, gateway, staker, stakerProxy, blockNumber)]. *)
Definition new (h : string) (am : BigNumber.t) (be : string)
    (gp gl no : BigNumber.t) (ga st sp : string) (bn : BigNumber.t) : t :=
  {| stakeRequestHash := h; amount := am; beneficiary := be;
     gasPrice := gp; gasLimit := gl; nonce := no;
     gateway := ga; staker := st; stakerProxy := sp;
     blockNumber := Some bn; messageHash := None |}.

(** [stakeRequest.blockNumber = v]. *)
Definition setBlockNumber (v : option BigNumber.t) (r : t) : t :=
  {| stakeRequestHash := stakeRequestHash r; amount := amount r;
     beneficiary := beneficiary r; gasPrice := gasPrice r;
     gasLimit := gasLimit r; nonce := nonce r; gateway := gateway r;
     staker := staker r; stakerProxy := stakerProxy r;
     blockNumber := v; messageHash := messageHash r |}.

(** [stakeRequest.messageHash = v]. *)
Definition setMessageHash (v : option string) (r : t) : t :=
  {| stakeRequestHash := stakeRequestHash r; amount := amount r;
     beneficiary := beneficiary r; gasPrice := gasPrice r;
     gasLimit := gasLimit r; nonce := nonce r; gateway := gateway r;
     staker := staker r; stakerProxy := stakerProxy r;
     blockNumber := blockNumber r; messageHash := v |}.

End StakeRequest.

(** One element of [transactions]: the fields [persist] reads, as the
    strings the event layer delivers. *)
Module Transaction.
Record t : Type := mk {
  stakeRequestHash : string;
  amount : string;
  beneficiary : string;
  gasPrice : string;
  gasLimit : string;
  nonce : string;
  gateway : string;
  staker : string;
  stakerProxy : string;
  blockNumber : string
}.
End Transaction.

(** ** Traces *)

(** What the handler did to the store and to the stored record it read.
    [ok] is whether the operation succeeded. [NonNullAssertion present]
    records one evaluation of [stakeRequest.blockNumber!] and whether the
    value was there. *)
Inductive Event : Type :=
| Get (hash : string) (ok : bool)
| Save (record : StakeRequest.t) (ok : bool)
| NonNullAssertion (present : bool).

Definition failed (e : Event) : bool :=
  match e with
  | Get _ ok | Save _ ok => negb ok
  | NonNullAssertion _ => false
  end.

Definition violated (e : Event) : bool :=
  match e with
  | NonNullAssertion present => negb present
  | _ => false
  end.

(** ** Asynchronous computations over a store *)

(** An [async] body over a store of type [S]: run against the store, it
    settles, leaves a trace of what it did, and leaves the store in a new
    state. *)
Definition Async (S A : Type) : Type := S -> Settled A * list Event * S.

Definition ret {S A} (a : A) : Async S A := fun s => (Fulfilled a, [], s).

(** [await]: continue with the value, or stop with the rejection. *)
Definition bind {S A B} (m : Async S A) (k : A -> Async S B) : Async S B :=
  fun s =>
    match m s with
    | (Fulfilled a, tr, s1) =>
        let '(r, tr', s2) := k a s1 in (r, tr ++ tr', s2)
    | (Rejected e, tr, s1) => (Rejected e, tr, s1)
    end.

(** A synchronous call that may throw, inside an [async] body. *)
Definition call {S A} (r : Settled A) : Async S A := fun s => (r, [], s).

(** A side note in the trace. *)
Definition note {S} (e : Event) : Async S unit :=
  fun s => (Fulfilled tt, [e], s).

Declare Scope async_scope.
Delimit Scope async_scope with async.
Notation "x <- m ;; k" := (bind m (fun x => k))
  (at level 100, m at next level, right associativity) : async_scope.
Notation "m ;;; k" := (bind m (fun _ => k))
  (at level 100, right associativity) : async_scope.

(** [Promise.all]: every promise of the list is already running when it is
    called, so every one leaves its trace and its effect on the store,
    whether or not another one rejects. It fulfils with the values in list
    order when all fulfil. When some reject, JavaScript reports the
    rejection that happens first in time; the embedding reports the first
    in list order, and nothing below depends on which reason is reported.
    The trace keeps the events of one promise together, promise after
    promise; the calls on the store are in the order they were issued,
    and they take effect in that order. *)
Fixpoint Promise_all {S A} (ps : list (Async S A)) : Async S (list A) :=
  fun s =>
    match ps with
    | [] => (Fulfilled [], [], s)
    | p :: ps' =>
        let '(r, tr, s1) := p s in
        let '(rs, tr', s2) := Promise_all ps' s1 in
        (match r, rs with
         | Fulfilled a, Fulfilled l => Fulfilled (a :: l)
         | Rejected e, _ => Rejected e
         | Fulfilled _, Rejected e => Rejected e
         end, tr ++ tr', s2)
    end.

(** ** The record store *)

Module StakeRequestRepository.

(** Modelled from the spec: [repositories/StakeRequestRepository] is not
    among the sources. The spec gives the Record Store as keyed get/save
    over stake-request records, keyed by the unique request hash:
    [get(requestHash)] is a point lookup by primary key and yields the
    record or absent, [save(record)] is an upsert by primary key that
    returns the persisted value, and either may fail. [rows] is the
    content; [getFails] and [saveFails] say on which keys the engine
    fails. Each [get] hands out its own copy of the row, so mutating a
    fetched record does not touch [rows]. *)
Record t : Type := mk {
  rows : gmap string StakeRequest.t;
  getFails : string -> bool;
  saveFails : string -> bool
}.

Definition withRows (m : gmap string StakeRequest.t) (s : t) : t :=
  {| rows := m; getFails := getFails s; saveFails := saveFails s |}.

(** Modelled from the spec: point lookup by primary key. *)
Definition get (hash : string) : Async t (option StakeRequest.t) :=
  fun s =>
  if getFails s hash
  then (Rejected (GetFailed hash), [Get hash false], s)
  else (Fulfilled (rows s !! hash), [Get hash true], s).

(** Modelled from the spec: upsert by primary key, returning the
    persisted value. *)
Definition save (r : StakeRequest.t) : Async t StakeRequest.t :=
  fun s =>
  if saveFails s (StakeRequest.stakeRequestHash r)
  then (Rejected (SaveFailed (StakeRequest.stakeRequestHash r)), [Save r false], s)
  else (Fulfilled r, [Save r true],
        withRows (<[StakeRequest.stakeRequestHash r := r]> (rows s)) s).

End StakeRequestRepository.

(** ** The handler *)

Section Handler.

(** The two library entry points the handler reaches:
    [new BigNumber(value)] from bignumber.js, which yields a value for
    every argument (NaN for one it cannot read), and
    [Web3Utils.toChecksumAddress] from web3-utils, which throws on a
    string that is not an address. *)
Variable newBigNumber : string -> BigNumber.t.
Variable Web3Utils_toChecksumAddress : string -> Settled string.

(** [Utils.toChecksumAddress]. *)
Definition toChecksumAddress (address : string) : Settled string :=
  Web3Utils_toChecksumAddress address.

(** [stakeRequest && blockNumber.gt(stakeRequest.blockNumber!)]: the
    right operand is evaluated only for a record that was found, and its
    non-null assertion is noted. *)
Definition alreadyPresentAtLowerBlock (stakeRequest : option StakeRequest.t)
    (blockNumber : BigNumber.t)
  : Async StakeRequestRepository.t bool :=
  match stakeRequest with
  | None => ret false
  | Some found =>
      (note (NonNullAssertion (bool_decide (is_Some (StakeRequest.blockNumber found)))) ;;;
       ret (BigNumber.gt blockNumber (StakeRequest.blockNumber found)))%async
  end.

(** The callback [persist] maps over [transactions]. *)
Definition resolve (transaction : Transaction.t)
  : Async StakeRequestRepository.t StakeRequest.t :=
  (let stakeRequestHash := Transaction.stakeRequestHash transaction in
   let amount := newBigNumber (Transaction.amount transaction) in
   beneficiary <- call (toChecksumAddress (Transaction.beneficiary transaction)) ;;
   let gasPrice := newBigNumber (Transaction.gasPrice transaction) in
   let gasLimit := newBigNumber (Transaction.gasLimit transaction) in
   let nonce := newBigNumber (Transaction.nonce transaction) in
   gateway <- call (toChecksumAddress (Transaction.gateway transaction)) ;;
   staker <- call (toChecksumAddress (Transaction.staker transaction)) ;;
   stakerProxy <- call (toChecksumAddress (Transaction.stakerProxy transaction)) ;;
   let blockNumber := newBigNumber (Transaction.blockNumber transaction) in
   stakeRequest <- StakeRequestRepository.get stakeRequestHash ;;
   mutate <- alreadyPresentAtLowerBlock stakeRequest blockNumber ;;
   match stakeRequest, mutate with
   | Some found, true =>
       ret (StakeRequest.setMessageHash None
              (StakeRequest.setBlockNumber (Some blockNumber) found))
   | _, _ =>
       ret (StakeRequest.new stakeRequestHash amount beneficiary gasPrice
              gasLimit nonce gateway staker stakerProxy blockNumber)
   end)%async.

(** [persist(transactions)]. The calls of [Logger.debug] write diagnostics
    only and are left out. *)
Definition persist (transactions : list Transaction.t)
  : Async StakeRequestRepository.t (list StakeRequest.t) :=
  (models <- Promise_all (map resolve transactions) ;;
   Promise_all (map StakeRequestRepository.save models) ;;;
   ret models)%async.

End Handler.

(** ** Reading a run *)

(** What a run of an [async] body leaves behind. *)
Definition settlement {S A} (r : Settled A * list Event * S) : Settled A :=
  r.1.1.

Definition trace {S A} (r : Settled A * list Event * S) : list Event :=
  r.1.2.

Definition storeAfter {S A} (r : Settled A * list Event * S) : S := r.2.

(** The records handed to [save], in the order of the calls. *)
Definition saved (tr : list Event) : list StakeRequest.t :=
  omap (fun e => match e with Save r _ => Some r | _ => None end) tr.

(** The records whose [save] completed. *)
Definition completed (tr : list Event) : list StakeRequest.t :=
  omap (fun e => match e with Save r true => Some r | _ => None end) tr.

(** Every row sits under its own request hash. *)
Definition keyed (s : StakeRequestRepository.t) : Prop :=
  forall k r, StakeRequestRepository.rows s !! k = Some r ->
              StakeRequest.stakeRequestHash r = k.

(** The rows after the saves of [ms] took effect in order, [fails] telling
    on which keys a save fails. *)
Definition applySaves (fails : string -> bool) (ms : list StakeRequest.t)
    (rows : gmap string StakeRequest.t) : gmap string StakeRequest.t :=
  fold_left
    (fun acc m =>
       if fails (StakeRequest.stakeRequestHash m) then acc
       else <[StakeRequest.stakeRequestHash m := m]> acc)
    ms rows.

(** The event a [save] of [m] leaves in the trace. *)
Definition saveEvent (fails : string -> bool) (m : StakeRequest.t) : Event :=
  Save m (negb (fails (StakeRequest.stakeRequestHash m))).

(** The callback read case by case, for the proofs: [resolve_run] below
    shows that [resolve] computes exactly this. *)
Section Reconciliation.

Variable newBigNumber : string -> BigNumber.t.
Variable Web3Utils_toChecksumAddress : string -> Settled string.

(** The four addresses of a transaction, normalized in the order the
    callback normalizes them; the first that throws decides. *)
Definition checksums (t : Transaction.t)
  : Settled (string * string * string * string) :=
  match toChecksumAddress Web3Utils_toChecksumAddress (Transaction.beneficiary t) with
  | Rejected e => Rejected e
  | Fulfilled be =>
      match toChecksumAddress Web3Utils_toChecksumAddress (Transaction.gateway t) with
      | Rejected e => Rejected e
      | Fulfilled ga =>
          match toChecksumAddress Web3Utils_toChecksumAddress (Transaction.staker t) with
          | Rejected e => Rejected e
          | Fulfilled st =>
              match toChecksumAddress Web3Utils_toChecksumAddress (Transaction.stakerProxy t) with
              | Rejected e => Rejected e
              | Fulfilled sp => Fulfilled (be, ga, st, sp)
              end
          end
      end
  end.

(** The record built from the transaction alone. *)
Definition fresh (t : Transaction.t) (a : string * string * string * string)
  : StakeRequest.t :=
  let '(be, ga, st, sp) := a in
  StakeRequest.new (Transaction.stakeRequestHash t)
    (newBigNumber (Transaction.amount t)) be
    (newBigNumber (Transaction.gasPrice t))
    (newBigNumber (Transaction.gasLimit t))
    (newBigNumber (Transaction.nonce t)) ga st sp
    (newBigNumber (Transaction.blockNumber t)).

(** The stored record moved to the transaction's block. *)
Definition rearmed (t : Transaction.t) (found : StakeRequest.t)
  : StakeRequest.t :=
  StakeRequest.setMessageHash None
    (StakeRequest.setBlockNumber
       (Some (newBigNumber (Transaction.blockNumber t))) found).

(** The record the callback settles on, given what [get] returned. *)
Definition reconciled (stored : option StakeRequest.t) (t : Transaction.t)
    (a : string * string * string * string) : StakeRequest.t :=
  match stored with
  | Some found =>
      if BigNumber.gt (newBigNumber (Transaction.blockNumber t))
           (StakeRequest.blockNumber found)
      then rearmed t found else fresh t a
  | None => fresh t a
  end.

(** The trace one callback leaves once its addresses are normalized. *)
Definition lookupTrace (s : StakeRequestRepository.t) (h : string)
  : list Event :=
  if StakeRequestRepository.getFails s h then [Get h false]
  else Get h true ::
       match StakeRequestRepository.rows s !! h with
       | Some found =>
           [NonNullAssertion
              (bool_decide (is_Some (StakeRequest.blockNumber found)))]
       | None => []
       end.

End Reconciliation.

(** ** The handler over the two libraries, and sample data *)

Module Scenario.

(** [persist] with bignumber.js and web3-utils in place. *)
Definition run (ts : list Transaction.t) (s : StakeRequestRepository.t)
  : Settled (list StakeRequest.t) * list Event * StakeRequestRepository.t :=
  persist BigNumber.ofString Web3Utils.toChecksumAddress ts s.



Definition beneficiary : string := "0x5aaeb6053f3e94c9b9a09f33669435e7ef1beaed".
Definition gateway : string := "0xfb6916095ca1df60bb79ce92ce3ea74c37c5d359".
Definition staker : string := "0xdbf03b407c01e7cd3cbea99509d93f8dddc8c6fb".
Definition stakerProxy : string := "0xd1220a0cf47c7b9be7a2e6ba89f429762e7b9adb".

(** A stake request seen at block 100. *)
Definition sighting : Transaction.t :=
  {| Transaction.stakeRequestHash := "0xAA";
     Transaction.amount := "10";
     Transaction.beneficiary := beneficiary;
     Transaction.gasPrice := "2";
     Transaction.gasLimit := "21000";
     Transaction.nonce := "1";
     Transaction.gateway := gateway;
     Transaction.staker := staker;
     Transaction.stakerProxy := stakerProxy;
     Transaction.blockNumber := "100" |}.

(** The same request delivered again at block 105 with another amount. *)
Definition laterSighting : Transaction.t :=
  {| Transaction.stakeRequestHash := "0xAA";
     Transaction.amount := "99";
     Transaction.beneficiary := gateway;
     Transaction.gasPrice := "3";
     Transaction.gasLimit := "30000";
     Transaction.nonce := "7";
     Transaction.gateway := beneficiary;
     Transaction.staker := stakerProxy;
     Transaction.stakerProxy := staker;
     Transaction.blockNumber := "105" |}.

(** Another request, at block 101. *)
Definition otherSighting : Transaction.t :=
  {| Transaction.stakeRequestHash := "0xBB";
     Transaction.amount := "12345678901234567890123";
     Transaction.beneficiary := beneficiary;
     Transaction.gasPrice := "2";
     Transaction.gasLimit := "21000";
     Transaction.nonce := "2";
     Transaction.gateway := gateway;
     Transaction.staker := staker;
     Transaction.stakerProxy := stakerProxy;
     Transaction.blockNumber := "101" |}.

(** A sighting whose amount is not a number. *)
Definition garbledAmount : Transaction.t :=
  {| Transaction.stakeRequestHash := "0xCC";
     Transaction.amount := "abc";
     Transaction.beneficiary := beneficiary;
     Transaction.gasPrice := "2";
     Transaction.gasLimit := "21000";
     Transaction.nonce := "3";
     Transaction.gateway := gateway;
     Transaction.staker := staker;
     Transaction.stakerProxy := stakerProxy;
     Transaction.blockNumber := "100" |}.


(** The record of [sighting] once the downstream process linked it. *)
Definition linked : StakeRequest.t :=
  {| StakeRequest.stakeRequestHash := "0xAA";
     StakeRequest.amount := BigNumber.Finite 1 1;
     StakeRequest.beneficiary := "0x5aAeb6053F3E94C9b9A09f33669435E7Ef1BeAed";
     StakeRequest.gasPrice := BigNumber.Finite 2 0;
     StakeRequest.gasLimit := BigNumber.Finite 21 3;
     StakeRequest.nonce := BigNumber.Finite 1 0;
     StakeRequest.gateway := "0xfB6916095ca1df60bB79Ce92cE3Ea74c37c5d359";
     StakeRequest.staker := "0xdbF03B407c01E7cD3CBea99509d93f8DDDC8C6FB";
     StakeRequest.stakerProxy := "0xD1220A0cf47c7B9Be7A2E6BA89F429762e7b9aDb";
     StakeRequest.blockNumber := Some (BigNumber.Finite 1 2);
     StakeRequest.messageHash := Some "0xMM" |}.

(** The record [otherSighting] resolves to. *)
Definition otherRecord : StakeRequest.t :=
  StakeRequest.new "0xBB" (BigNumber.Finite 12345678901234567890123 0)
    "0x5aAeb6053F3E94C9b9A09f33669435E7Ef1BeAed"
    (BigNumber.Finite 2 0) (BigNumber.Finite 21 3) (BigNumber.Finite 2 0)
    "0xfB6916095ca1df60bB79Ce92cE3Ea74c37c5d359"
    "0xdbF03B407c01E7cD3CBea99509d93f8DDDC8C6FB"
    "0xD1220A0cf47c7B9Be7A2E6BA89F429762e7b9aDb"
    (BigNumber.Finite 101 0).

(** The record of a row written without a block number. *)
Definition unnumbered : StakeRequest.t :=
  StakeRequest.setBlockNumber None linked.

Definition never (_ : string) : bool := false.

Definition emptyStore : StakeRequestRepository.t :=
  {| StakeRequestRepository.rows := ∅;
     StakeRequestRepository.getFails := never;
     StakeRequestRepository.saveFails := never |}.

Definition linkedStore : StakeRequestRepository.t :=
  {| StakeRequestRepository.rows := {[ "0xAA" := linked ]};
     StakeRequestRepository.getFails := never;
     StakeRequestRepository.saveFails := never |}.

(** A store whose engine cannot write the row of [otherSighting]. *)
Definition failingStore : StakeRequestRepository.t :=
  {| StakeRequestRepository.rows := {[ "0xAA" := linked ]};
     StakeRequestRepository.getFails := never;
     StakeRequestRepository.saveFails := String.eqb "0xBB" |}.

End Scenario.

(** ** [Utils.getDefinedOwnProps] *)

Module Utils.

(** A JavaScript value, as far as [getDefinedOwnProps] tells values apart:
    it tests [value !== undefined] and nothing else, so [null] and every
    other value count as defined. *)
Inductive Value : Type :=
| Undefined
| Null
| Boolean (b : bool)
| Text (s : string)
| Big (n : BigNumber.t).

(** [value !== undefined]. *)
Definition defined (value : Value) : bool :=
  match value with
  | Undefined => false
  | _ => true
  end.

(** [getDefinedOwnProps(obj)], the object given as [Object.entries(obj)]
    lists it: its own enumerable string-keyed properties, each key once.
    The loop pushes the key of every entry whose value is not
    [undefined]. *)
Definition getDefinedOwnProps (obj : list (string * Value)) : list string :=
  fold_left
    (fun nonUndefinedOwnedProps entry =>
       let '(key, value) := entry in
       if defined value then nonUndefinedOwnedProps ++ [key]
       else nonUndefinedOwnedProps)
    obj [].

(** [obj[key] = value] on the entries of an ordinary object, for a key
    that is not an array index, as [stakeRequest.messageHash = undefined]
    in the handler: an own property keeps its place and takes the value, a
    new one goes last. *)
Fixpoint assign (key : string) (value : Value) (obj : list (string * Value))
  : list (string * Value) :=
  match obj with
  | [] => [(key, value)]
  | (k, v) :: rest =>
      if String.eqb k key then (k, value) :: rest
      else (k, v) :: assign key value rest
  end.

End Utils.

(** ** Spellings of an address *)

(** The digits an address string spells: the string in lower case and
    without the [0x], which is what [Web3Utils.toChecksumAddress] hashes
    and re-cases. *)
Definition addressDigits (address : string) : list ascii :=
  Web3Utils.stripHexPrefix
    (map Web3Utils.toLowerCase (list_ascii_of_string address)).

(** ** More readings of a run *)

(** Whether the event is a write to the store. *)
Definition isWrite (e : Event) : bool :=
  match e with
  | Save _ _ => true
  | _ => false
  end.

(** The request hashes [get] was called with, in the order of the calls. *)
Definition gets (tr : list Event) : list string :=
  omap (fun e => match e with Get h _ => Some h | _ => None end) tr.

(** Every row has a block number. *)
Definition numbered (s : StakeRequestRepository.t) : Prop :=
  forall k r, StakeRequestRepository.rows s !! k = Some r ->
              is_Some (StakeRequest.blockNumber r).

Section Calls.

Variable newBigNumber : string -> BigNumber.t.
Variable Web3Utils_toChecksumAddress : string -> Settled string.

(** Whether the four addresses of a transaction all normalize. *)
Definition addressesNormalize (t : Transaction.t) : bool :=
  negb (isRejected (checksums Web3Utils_toChecksumAddress t)).

(** The record holds what the transaction says and no message hash: the
    parsed numerics, the normalized addresses, the request hash. *)
Definition builtFromEvent (t : Transaction.t) (m : StakeRequest.t) : Prop :=
  StakeRequest.stakeRequestHash m = Transaction.stakeRequestHash t
  /\ StakeRequest.amount m = newBigNumber (Transaction.amount t)
  /\ StakeRequest.gasPrice m = newBigNumber (Transaction.gasPrice t)
  /\ StakeRequest.gasLimit m = newBigNumber (Transaction.gasLimit t)
  /\ StakeRequest.nonce m = newBigNumber (Transaction.nonce t)
  /\ StakeRequest.blockNumber m = Some (newBigNumber (Transaction.blockNumber t))
  /\ StakeRequest.messageHash m = None
  /\ toChecksumAddress Web3Utils_toChecksumAddress (Transaction.beneficiary t)
     = Fulfilled (StakeRequest.beneficiary m)
  /\ toChecksumAddress Web3Utils_toChecksumAddress (Transaction.gateway t)
     = Fulfilled (StakeRequest.gateway m)
  /\ toChecksumAddress Web3Utils_toChecksumAddress (Transaction.staker t)
     = Fulfilled (StakeRequest.staker m)
  /\ toChecksumAddress Web3Utils_toChecksumAddress (Transaction.stakerProxy t)
     = Fulfilled (StakeRequest.stakerProxy m).

(** Two transactions that say the same to the handler: the same request
    hash and numeric fields, and addresses that normalize alike. *)
Definition sameNormalized (t1 t2 : Transaction.t) : Prop :=
  Transaction.stakeRequestHash t1 = Transaction.stakeRequestHash t2
  /\ Transaction.amount t1 = Transaction.amount t2
  /\ Transaction.gasPrice t1 = Transaction.gasPrice t2
  /\ Transaction.gasLimit t1 = Transaction.gasLimit t2
  /\ Transaction.nonce t1 = Transaction.nonce t2
  /\ Transaction.blockNumber t1 = Transaction.blockNumber t2
  /\ toChecksumAddress Web3Utils_toChecksumAddress (Transaction.beneficiary t1)
     = toChecksumAddress Web3Utils_toChecksumAddress (Transaction.beneficiary t2)
  /\ toChecksumAddress Web3Utils_toChecksumAddress (Transaction.gateway t1)
     = toChecksumAddress Web3Utils_toChecksumAddress (Transaction.gateway t2)
  /\ toChecksumAddress Web3Utils_toChecksumAddress (Transaction.staker t1)
     = toChecksumAddress Web3Utils_toChecksumAddress (Transaction.staker t2)
  /\ toChecksumAddress Web3Utils_toChecksumAddress (Transaction.stakerProxy t1)
     = toChecksumAddress Web3Utils_toChecksumAddress (Transaction.stakerProxy t2).

(** Calls of [persist] one after the other, each awaited before the next
    and whatever it settles with: the traces of the calls, end to end, and
    the store after the last. *)
Fixpoint persistEach (batches : list (list Transaction.t))
    (s : StakeRequestRepository.t) : list Event * StakeRequestRepository.t :=
  match batches with
  | [] => ([], s)
  | ts :: rest =>
      let r := persist newBigNumber Web3Utils_toChecksumAddress ts s in
      let '(tr, s') := persistEach rest (storeAfter r) in
      (trace r ++ tr, s')
  end.

End Calls.

(** More sample data. *)
Module Sample.

(** [Scenario.sighting] with its addresses in capitals. *)
Definition shouted : Transaction.t :=
  {| Transaction.stakeRequestHash := "0xAA";
     Transaction.amount := "10";
     Transaction.beneficiary := "0X5AAEB6053F3E94C9B9A09F33669435E7EF1BEAED";
     Transaction.gasPrice := "2";
     Transaction.gasLimit := "21000";
     Transaction.nonce := "1";
     Transaction.gateway := "FB6916095CA1DF60BB79CE92CE3EA74C37C5D359";
     Transaction.staker := "0xDBF03B407C01E7CD3CBEA99509D93F8DDDC8C6FB";
     Transaction.stakerProxy := "0xD1220A0CF47C7B9BE7A2E6BA89F429762E7B9ADB";
     Transaction.blockNumber := "100" |}.

(** A store whose engine cannot read the row of [Scenario.otherSighting]. *)
Definition unreadableStore : StakeRequestRepository.t :=
  {| StakeRequestRepository.rows := {[ "0xAA" := Scenario.linked ]};
     StakeRequestRepository.getFails := String.eqb "0xBB";
     StakeRequestRepository.saveFails := Scenario.never |}.

(** A store with a row whose block number is missing. *)
Definition unnumberedStore : StakeRequestRepository.t :=
  {| StakeRequestRepository.rows := {[ "0xAA" := Scenario.unnumbered ]};
     StakeRequestRepository.getFails := Scenario.never;
     StakeRequestRepository.saveFails := Scenario.never |}.

(** A [StakeRequest] read as an object, field by field. *)
Definition record : list (string * Utils.Value) :=
  [("stakeRequestHash", Utils.Text "0xAA");
   ("amount", Utils.Big (BigNumber.Finite 1 1));
   ("beneficiary", Utils.Text "0x5aAeb6053F3E94C9b9A09f33669435E7Ef1BeAed");
   ("blockNumber", Utils.Big (BigNumber.Finite 1 2));
   ("messageHash", Utils.Text "0xMM");
   ("createdAt", Utils.Null)].

End Sample.

(** ** Facts about runs *)

Lemma saved_app (tr tr' : list Event) : saved (tr ++ tr') = saved tr ++ saved tr'.
Proof. unfold saved. apply omap_app. Qed.

Lemma completed_app (tr tr' : list Event) :
  completed (tr ++ tr') = completed tr ++ completed tr'.
Proof. unfold completed. apply omap_app. Qed.

(** [gt] on two integers is the order of the integers. *)
Lemma gt_integers (a b : Z) :
  BigNumber.gt (BigNumber.Finite a 0) (Some (BigNumber.Finite b 0)) = true
  <-> b < a.
Proof.
  unfold BigNumber.gt, BigNumber.comparedTo, BigNumber.align. simpl.
  rewrite !Z.mul_1_r. destruct (a ?= b) eqn:E.
  - apply Z.compare_eq in E. split; [discriminate | lia].
  - rewrite Z.compare_lt_iff in E. split; [discriminate | lia].
  - rewrite Z.compare_gt_iff in E. split; [lia | reflexivity].
Qed.

(** A value is never above itself. *)
Lemma gt_irrefl (x : BigNumber.t) : BigNumber.gt x (Some x) = false.
Proof.
  destruct x as [|[]|c e]; try reflexivity.
  unfold BigNumber.gt, BigNumber.comparedTo, BigNumber.align. simpl.
  now rewrite Z.compare_refl.
Qed.

(** Below or equal excludes above. *)
Lemma lte_not_gt (x : BigNumber.t) (y : option BigNumber.t) :
  BigNumber.lte x y = true -> BigNumber.gt x y = false.
Proof.
  unfold BigNumber.lte, BigNumber.gt.
  now destruct (BigNumber.comparedTo x (BigNumber.ofArgument y)) as [[]|].
Qed.

Section Runs.

Variable newBigNumber : string -> BigNumber.t.
Variable Web3Utils_toChecksumAddress : string -> Settled string.

Abbreviation resolve := (resolve newBigNumber Web3Utils_toChecksumAddress).
Abbreviation persist := (persist newBigNumber Web3Utils_toChecksumAddress).
Abbreviation checksums := (checksums Web3Utils_toChecksumAddress).
Abbreviation reconciled := (reconciled newBigNumber).
Abbreviation fresh := (fresh newBigNumber).
Abbreviation rearmed := (rearmed newBigNumber).

(** The callback, case by case. *)
Lemma resolve_run (t : Transaction.t) (s : StakeRequestRepository.t) :
  resolve t s =
  match checksums t with
  | Rejected e => (Rejected e, [], s)
  | Fulfilled a =>
      let h := Transaction.stakeRequestHash t in
      (if StakeRequestRepository.getFails s h
       then Rejected (GetFailed h)
       else Fulfilled (reconciled (StakeRequestRepository.rows s !! h) t a),
       lookupTrace s h, s)
  end.
Proof.
  unfold resolve, checksums, bind, call, lookupTrace.
  destruct (toChecksumAddress _ (Transaction.beneficiary t)); [|reflexivity].
  destruct (toChecksumAddress _ (Transaction.gateway t)); [|reflexivity].
  destruct (toChecksumAddress _ (Transaction.staker t)); [|reflexivity].
  destruct (toChecksumAddress _ (Transaction.stakerProxy t)); [|reflexivity].
  cbn [app]. unfold StakeRequestRepository.get.
  destruct (StakeRequestRepository.getFails s _); [reflexivity|].
  destruct (StakeRequestRepository.rows s !! _) as [found|]; cbn; [|reflexivity].
  unfold reconciled. now destruct (BigNumber.gt _ _).
Qed.

Lemma resolve_store t s : storeAfter (resolve t s) = s.
Proof.
  rewrite resolve_run. destruct (checksums t); reflexivity.
Qed.

Lemma resolve_trace t s :
  trace (resolve t s) =
  match checksums t with
  | Rejected _ => []
  | Fulfilled _ => lookupTrace s (Transaction.stakeRequestHash t)
  end.
Proof. rewrite resolve_run. destruct (checksums t); reflexivity. Qed.

Lemma lookupTrace_no_save s h : saved (lookupTrace s h) = [].
Proof.
  unfold lookupTrace.
  destruct (StakeRequestRepository.getFails s h); [reflexivity|].
  now destruct (StakeRequestRepository.rows s !! h).
Qed.

Lemma resolve_no_save t s : saved (trace (resolve t s)) = [].
Proof.
  rewrite resolve_trace. destruct (checksums t); [|reflexivity].
  apply lookupTrace_no_save.
Qed.

(** [Promise.all] over the callbacks, unfolded by one transaction. *)
Lemma resolve_all_cons t ts s :
  Promise_all (map resolve (t :: ts)) s =
  (match settlement (resolve t s),
         settlement (Promise_all (map resolve ts) s) with
   | Fulfilled a, Fulfilled l => Fulfilled (a :: l)
   | Rejected e, _ => Rejected e
   | Fulfilled _, Rejected e => Rejected e
   end,
   trace (resolve t s) ++ trace (Promise_all (map resolve ts) s),
   storeAfter (Promise_all (map resolve ts) s)).
Proof.
  cbn [map Promise_all].
  pose proof (resolve_store t s) as Hs.
  destruct (resolve t s) as [[r tr] s1]. cbn in Hs. subst s1.
  now destruct (Promise_all (map resolve ts) s) as [[rs tr'] s2].
Qed.

Lemma resolve_all_store ts s :
  storeAfter (Promise_all (map resolve ts) s) = s.
Proof.
  induction ts as [|t ts IH]; [reflexivity|].
  now rewrite resolve_all_cons.
Qed.

Lemma resolve_all_no_save ts s :
  saved (trace (Promise_all (map resolve ts) s)) = [].
Proof.
  induction ts as [|t ts IH]; [reflexivity|].
  rewrite resolve_all_cons. cbn [trace fst snd].
  now rewrite saved_app, resolve_no_save, IH.
Qed.

(** When all callbacks fulfil, the values are theirs, position by
    position. *)
Lemma resolve_all_fulfilled ts s ms :
  settlement (Promise_all (map resolve ts) s) = Fulfilled ms ->
  Forall2 (fun t m => settlement (resolve t s) = Fulfilled m) ts ms.
Proof.
  revert ms. induction ts as [|t ts IH]; intros ms H.
  - cbn in H. injection H as <-. constructor.
  - rewrite resolve_all_cons in H. cbn [settlement fst] in H.
    destruct (settlement (resolve t s)) as [a|e] eqn:Ea; [|discriminate].
    destruct (settlement (Promise_all (map resolve ts) s)) as [l|e] eqn:El;
      [|discriminate].
    injection H as <-. constructor; [exact Ea | now apply IH].
Qed.


(** And all fulfilled callbacks fulfil the whole. *)
Lemma resolve_all_total ts s :
  Forall (fun t => isRejected (settlement (resolve t s)) = false) ts ->
  exists ms, settlement (Promise_all (map resolve ts) s) = Fulfilled ms.
Proof.
  induction 1 as [|t ts Ht _ [ms IH]]; [now exists []|].
  rewrite resolve_all_cons. cbn [settlement fst]. rewrite IH.
  destruct (settlement (resolve t s)) as [a|]; [|discriminate].
  now exists (a :: ms).
Qed.

End Runs.

(** [Promise.all], unfolded by one promise. *)
Lemma Promise_all_cons {S A} (p : Async S A) (ps : list (Async S A)) (s : S) :
  Promise_all (p :: ps) s =
  (match settlement (p s),
         settlement (Promise_all ps (storeAfter (p s))) with
   | Fulfilled a, Fulfilled l => Fulfilled (a :: l)
   | Rejected e, _ => Rejected e
   | Fulfilled _, Rejected e => Rejected e
   end,
   trace (p s) ++ trace (Promise_all ps (storeAfter (p s))),
   storeAfter (Promise_all ps (storeAfter (p s)))).
Proof.
  cbn [Promise_all]. destruct (p s) as [[r tr] s1]. cbn.
  now destruct (Promise_all ps s1) as [[rs tr'] s2].
Qed.

Lemma save_run (m : StakeRequest.t) (s : StakeRequestRepository.t) :
  trace (StakeRequestRepository.save m s)
  = [saveEvent (StakeRequestRepository.saveFails s) m]
  /\ storeAfter (StakeRequestRepository.save m s)
     = StakeRequestRepository.withRows
         (applySaves (StakeRequestRepository.saveFails s) [m]
            (StakeRequestRepository.rows s)) s
  /\ settlement (StakeRequestRepository.save m s)
     = if StakeRequestRepository.saveFails s (StakeRequest.stakeRequestHash m)
       then Rejected (SaveFailed (StakeRequest.stakeRequestHash m))
       else Fulfilled m.
Proof.
  unfold StakeRequestRepository.save, saveEvent, applySaves. cbn [fold_left].
  destruct (StakeRequestRepository.saveFails s _); cbn; [|done].
  now destruct s.
Qed.

(** The saves of a list of records: one event per record, in order, and
    the rows after them. *)
Lemma save_all_run (ms : list StakeRequest.t) (s : StakeRequestRepository.t) :
  trace (Promise_all (map StakeRequestRepository.save ms) s)
  = map (saveEvent (StakeRequestRepository.saveFails s)) ms
  /\ storeAfter (Promise_all (map StakeRequestRepository.save ms) s)
     = StakeRequestRepository.withRows
         (applySaves (StakeRequestRepository.saveFails s) ms
            (StakeRequestRepository.rows s)) s
  /\ settlement (Promise_all (map StakeRequestRepository.save ms) s)
     = match
         filter (fun m => StakeRequestRepository.saveFails s
                            (StakeRequest.stakeRequestHash m) = true) ms
       with
       | [] => Fulfilled ms
       | m :: _ => Rejected (SaveFailed (StakeRequest.stakeRequestHash m))
       end.
Proof.
  revert s. induction ms as [|m ms IH]; intros s.
  - cbn. now destruct s.
  - cbn [map]. rewrite Promise_all_cons.
    destruct (save_run m s) as (Ht & Hs & Hr).
    rewrite Ht, Hs, Hr. clear Ht Hs Hr.
    destruct (IH (StakeRequestRepository.withRows
                    (applySaves (StakeRequestRepository.saveFails s) [m]
                       (StakeRequestRepository.rows s)) s)) as (Ht & Hs & Hr).
    cbn [StakeRequestRepository.saveFails StakeRequestRepository.rows
         StakeRequestRepository.withRows] in Ht, Hs, Hr.
    cbn [trace settlement storeAfter fst snd]. cbn [trace settlement storeAfter fst snd] in Ht, Hs, Hr.
    rewrite Ht, Hs, Hr. clear Ht Hs Hr IH.
    split; [reflexivity|]. split; [reflexivity|].
    rewrite filter_cons.
    destruct (StakeRequestRepository.saveFails s (StakeRequest.stakeRequestHash m)) eqn:E.
    + rewrite decide_True by reflexivity. reflexivity.
    + rewrite decide_False by discriminate.
      now destruct (filter _ ms).
Qed.

Section Persist.

Variable newBigNumber : string -> BigNumber.t.
Variable Web3Utils_toChecksumAddress : string -> Settled string.

Abbreviation resolve := (resolve newBigNumber Web3Utils_toChecksumAddress).
Abbreviation persist := (persist newBigNumber Web3Utils_toChecksumAddress).

(** [persist], stage by stage: the callbacks against the store as it was,
    then, only if all of them fulfilled, the saves. *)
Lemma persist_run (ts : list Transaction.t) (s : StakeRequestRepository.t) :
  persist ts s =
  match settlement (Promise_all (map resolve ts) s) with
  | Rejected e => (Rejected e, trace (Promise_all (map resolve ts) s), s)
  | Fulfilled ms =>
      (match settlement (Promise_all (map StakeRequestRepository.save ms) s) with
       | Fulfilled _ => Fulfilled ms
       | Rejected e => Rejected e
       end,
       trace (Promise_all (map resolve ts) s)
       ++ trace (Promise_all (map StakeRequestRepository.save ms) s),
       storeAfter (Promise_all (map StakeRequestRepository.save ms) s))
  end.
Proof.
  unfold persist, bind, ret.
  pose proof (resolve_all_store newBigNumber Web3Utils_toChecksumAddress ts s) as Hs.
  destruct (Promise_all (map resolve ts) s) as [[[ms|e] tr] s1];
    cbn in Hs; subst s1; cbn [settlement trace fst snd]; [|reflexivity].
  destruct (Promise_all (map StakeRequestRepository.save ms) s) as [[[l|e] tr'] s2];
    cbn; [|reflexivity].
  now rewrite app_nil_r.
Qed.


Lemma saved_saveEvents (fails : string -> bool) (ms : list StakeRequest.t) :
  saved (map (saveEvent fails) ms) = ms.
Proof.
  induction ms as [|m ms IH]; [reflexivity|].
  cbn. unfold saved in IH. now rewrite IH.
Qed.

Lemma completed_saveEvents (fails : string -> bool) (ms : list StakeRequest.t) :
  Forall (fun m => fails (StakeRequest.stakeRequestHash m) = false) ms ->
  completed (map (saveEvent fails) ms) = ms.
Proof.
  induction 1 as [|m ms Hm _ IH]; [reflexivity|].
  cbn. rewrite Hm. cbn. unfold completed in IH. now rewrite IH.
Qed.

Lemma filter_nil_Forall {A} (P : A -> Prop) `{!forall x, Decision (P x)}
    (l : list A) :
  filter P l = [] -> Forall (fun x => ~ P x) l.
Proof.
  induction l as [|x l IH]; [constructor|].
  rewrite filter_cons. destruct (decide (P x)); [discriminate|].
  intros Hf. constructor; [assumption | now apply IH].
Qed.

(** The saves fulfil exactly when none of them fails. *)
Lemma save_all_fulfilled (ms l : list StakeRequest.t)
    (s : StakeRequestRepository.t) :
  settlement (Promise_all (map StakeRequestRepository.save ms) s) = Fulfilled l ->
  l = ms /\
  Forall (fun m => StakeRequestRepository.saveFails s
                     (StakeRequest.stakeRequestHash m) = false) ms.
Proof.
  destruct (save_all_run ms s) as (_ & _ & ->).
  destruct (filter _ ms) eqn:E; [|discriminate].
  intros [= <-]. split; [reflexivity|].
  apply filter_nil_Forall in E.
  eapply Forall_impl; [exact E|]. cbn. intros m Hm.
  now destruct (StakeRequestRepository.saveFails s _).
Qed.

(** The run of a fulfilled [persist]. *)
Lemma persist_fulfilled (ts : list Transaction.t)
    (s : StakeRequestRepository.t) (ms : list StakeRequest.t) :
  settlement (persist ts s) = Fulfilled ms ->
  settlement (Promise_all (map resolve ts) s) = Fulfilled ms
  /\ Forall (fun m => StakeRequestRepository.saveFails s
                        (StakeRequest.stakeRequestHash m) = false) ms
  /\ trace (persist ts s)
     = trace (Promise_all (map resolve ts) s)
       ++ map (saveEvent (StakeRequestRepository.saveFails s)) ms
  /\ storeAfter (persist ts s)
     = StakeRequestRepository.withRows
         (applySaves (StakeRequestRepository.saveFails s) ms
            (StakeRequestRepository.rows s)) s.
Proof.
  rewrite persist_run.
  destruct (settlement (Promise_all (map resolve ts) s)) as [ms'|e] eqn:E;
    cbn [settlement trace storeAfter fst snd]; [|discriminate].
  destruct (settlement (Promise_all (map StakeRequestRepository.save ms') s))
    as [l|e] eqn:El; [|discriminate].
  intros [= ->].
  apply save_all_fulfilled in El as [_ Hok].
  destruct (save_all_run ms s) as (Ht & Hs & _).
  now rewrite Ht, Hs.
Qed.

(** The records handed to [save] are the resolved ones, whenever the
    callbacks all fulfilled. *)
Lemma persist_saved (ts : list Transaction.t)
    (s : StakeRequestRepository.t) :
  saved (trace (persist ts s)) =
  match settlement (Promise_all (map resolve ts) s) with
  | Fulfilled ms => ms
  | Rejected _ => []
  end.
Proof.
  rewrite persist_run.
  destruct (settlement (Promise_all (map resolve ts) s)) as [ms|e];
    cbn [trace fst snd].
  - rewrite saved_app, resolve_all_no_save.
    destruct (save_all_run ms s) as (-> & _ & _).
    now rewrite saved_saveEvents.
  - apply resolve_all_no_save.
Qed.

(** What the callback fulfils with. *)
Lemma resolve_fulfilled (t : Transaction.t) (s : StakeRequestRepository.t)
    (m : StakeRequest.t) :
  settlement (resolve t s) = Fulfilled m ->
  exists a, checksums Web3Utils_toChecksumAddress t = Fulfilled a
            /\ StakeRequestRepository.getFails s (Transaction.stakeRequestHash t) = false
            /\ m = reconciled newBigNumber
                     (StakeRequestRepository.rows s !! Transaction.stakeRequestHash t) t a.
Proof.
  rewrite resolve_run.
  destruct (checksums _ t) as [a|e]; [|discriminate].
  cbn. destruct (StakeRequestRepository.getFails s _); [discriminate|].
  intros [= <-]. now exists a.
Qed.

(** The four addresses behind a fulfilled [checksums]. *)
Lemma checksums_fulfilled (t : Transaction.t) (be ga st sp : string) :
  checksums Web3Utils_toChecksumAddress t = Fulfilled (be, ga, st, sp) ->
  toChecksumAddress Web3Utils_toChecksumAddress (Transaction.beneficiary t) = Fulfilled be
  /\ toChecksumAddress Web3Utils_toChecksumAddress (Transaction.gateway t) = Fulfilled ga
  /\ toChecksumAddress Web3Utils_toChecksumAddress (Transaction.staker t) = Fulfilled st
  /\ toChecksumAddress Web3Utils_toChecksumAddress (Transaction.stakerProxy t) = Fulfilled sp.
Proof.
  unfold checksums.
  destruct (toChecksumAddress _ (Transaction.beneficiary t)); [|discriminate].
  destruct (toChecksumAddress _ (Transaction.gateway t)); [|discriminate].
  destruct (toChecksumAddress _ (Transaction.staker t)); [|discriminate].
  destruct (toChecksumAddress _ (Transaction.stakerProxy t)); [|discriminate].
  now intros [= -> -> -> ->].
Qed.

(** The resolved record of the transaction at position [i]. *)
Lemma persist_lookup (ts : list Transaction.t) (s : StakeRequestRepository.t)
    (ms : list StakeRequest.t) (i : nat) (t : Transaction.t) :
  settlement (persist ts s) = Fulfilled ms ->
  ts !! i = Some t ->
  exists m, ms !! i = Some m
            /\ saved (trace (persist ts s)) !! i = Some m
            /\ settlement (resolve t s) = Fulfilled m.
Proof.
  intros H Hi.
  rewrite persist_saved.
  apply persist_fulfilled in H as (Hall & _).
  rewrite Hall.
  apply resolve_all_fulfilled in Hall.
  destruct (Forall2_lookup_l _ _ _ _ _ Hall Hi) as (m & Hm & Hr).
  now exists m.
Qed.



(** The trace of the callbacks is the traces of each, one after the
    other. *)
Lemma resolve_all_trace (ts : list Transaction.t)
    (s : StakeRequestRepository.t) (e : Event) :
  e ∈ trace (Promise_all (map resolve ts) s)
  <-> exists t, t ∈ ts /\ e ∈ trace (resolve t s).
Proof.
  induction ts as [|t ts IH].
  - cbn. split; [intros H; now apply elem_of_nil in H|].
    intros (t & H & _). now apply elem_of_nil in H.
  - rewrite resolve_all_cons. cbn [trace fst snd].
    rewrite elem_of_app, IH. split.
    + intros [H|(t' & Hin & H)].
      * exists t. split; [apply list_elem_of_here | exact H].
      * exists t'. split; [now apply list_elem_of_further | exact H].
    + intros (t' & Hin & H). apply elem_of_cons in Hin as [->|Hin].
      * now left.
      * right. now exists t'.
Qed.


(** A callback that fulfilled met no failure of the store. *)
Lemma resolve_fulfilled_no_failure (t : Transaction.t)
    (s : StakeRequestRepository.t) (e : Event) :
  isRejected (settlement (resolve t s)) = false ->
  e ∈ trace (resolve t s) -> failed e = false.
Proof.
  rewrite resolve_run. destruct (checksums _ t); [|discriminate].
  cbn. unfold lookupTrace.
  destruct (StakeRequestRepository.getFails s _); [discriminate|].
  intros _ H. apply elem_of_cons in H as [->|H]; [reflexivity|].
  destruct (StakeRequestRepository.rows s !! _).
  - apply list_elem_of_singleton in H as ->. reflexivity.
  - now apply elem_of_nil in H.
Qed.


(** On a keyed store the resolved record carries the request hash of its
    transaction. *)
Lemma reconciled_hash (t : Transaction.t) (s : StakeRequestRepository.t)
    (a : string * string * string * string) :
  keyed s ->
  StakeRequest.stakeRequestHash
    (reconciled newBigNumber
       (StakeRequestRepository.rows s !! Transaction.stakeRequestHash t) t a)
  = Transaction.stakeRequestHash t.
Proof.
  intros Hk. unfold reconciled.
  destruct (StakeRequestRepository.rows s !! _) as [found|] eqn:E.
  - destruct (BigNumber.gt _ _).
    + cbn. now apply Hk.
    + now destruct a as [[[? ?] ?] ?].
  - now destruct a as [[[? ?] ?] ?].
Qed.

Lemma applySaves_cons (fails : string -> bool) (m : StakeRequest.t)
    (ms : list StakeRequest.t) (rows : gmap string StakeRequest.t) :
  applySaves fails (m :: ms) rows
  = applySaves fails ms
      (if fails (StakeRequest.stakeRequestHash m) then rows
       else <[StakeRequest.stakeRequestHash m := m]> rows).
Proof. reflexivity. Qed.

(** Saves under other keys leave a key alone. *)
Lemma applySaves_other (fails : string -> bool) (ms : list StakeRequest.t)
    (rows : gmap string StakeRequest.t) (h : string) :
  Forall (fun m => StakeRequest.stakeRequestHash m <> h) ms ->
  applySaves fails ms rows !! h = rows !! h.
Proof.
  intros H. revert rows. induction H as [|m ms Hm _ IH]; intros rows.
  - reflexivity.
  - rewrite applySaves_cons, IH. destruct (fails _); [reflexivity|].
    now apply lookup_insert_ne.
Qed.

(** The one save under a key decides the row under it. *)
Lemma applySaves_unique (fails : string -> bool) (ms : list StakeRequest.t)
    (rows : gmap string StakeRequest.t) (i : nat) (m : StakeRequest.t) :
  ms !! i = Some m ->
  (forall j m', ms !! j = Some m' ->
     StakeRequest.stakeRequestHash m' = StakeRequest.stakeRequestHash m ->
     j = i) ->
  fails (StakeRequest.stakeRequestHash m) = false ->
  applySaves fails ms rows !! StakeRequest.stakeRequestHash m = Some m.
Proof.
  revert rows i. induction ms as [|m0 ms IH]; intros rows i Hi Huniq Hok.
  - discriminate.
  - destruct i as [|i]; cbn in Hi.
    + injection Hi as ->. rewrite applySaves_cons, Hok.
      rewrite applySaves_other; [apply lookup_insert_eq|].
      apply Forall_lookup_2. intros j m' Hj Heq.
      specialize (Huniq (S j) m' Hj Heq). discriminate.
    + rewrite applySaves_cons. apply (IH _ i Hi); [|exact Hok].
      intros j m' Hj Heq. specialize (Huniq (S j) m' Hj Heq). lia.
Qed.

(** Whatever [get] returned, the record settled on has no message hash. *)
Lemma reconciled_messageHash (stored : option StakeRequest.t)
    (t : Transaction.t) (a : string * string * string * string) :
  StakeRequest.messageHash (reconciled newBigNumber stored t a) = None.
Proof.
  unfold reconciled. destruct stored as [found|].
  - destruct (BigNumber.gt _ _); [reflexivity|].
    now destruct a as [[[? ?] ?] ?].
  - now destruct a as [[[? ?] ?] ?].
Qed.

(** On a store whose rows all have a block number, no callback asserts a
    missing one. *)
Lemma resolve_no_violation (t : Transaction.t) (s : StakeRequestRepository.t)
    (e : Event) :
  (forall k r, StakeRequestRepository.rows s !! k = Some r ->
               is_Some (StakeRequest.blockNumber r)) ->
  e ∈ trace (resolve t s) -> violated e = false.
Proof.
  intros Hpre. rewrite resolve_trace.
  destruct (checksums _ t); [|intros H; now apply elem_of_nil in H].
  unfold lookupTrace.
  destruct (StakeRequestRepository.getFails s _).
  - intros H. now apply list_elem_of_singleton in H as ->.
  - intros H. apply elem_of_cons in H as [->|H]; [reflexivity|].
    destruct (StakeRequestRepository.rows s !! _) as [found|] eqn:E.
    + apply list_elem_of_singleton in H as ->. cbn.
      rewrite bool_decide_eq_true_2; [reflexivity|].
      now apply (Hpre _ _ E).
    + now apply elem_of_nil in H.
Qed.

(** ** The claims *)

(** C1. For every input event whose request hash has a stored record with
    block number [b], and whose parsed block number is strictly greater
    than [b], the record [persist] resolves and saves for that event is
    the stored record with the block number set to the parsed one and the
    message hash absent; the request hash, amount, gas price, gas limit,
    nonce, beneficiary, gateway, staker and staker proxy are those of the
    stored record, not those of the event. *)
Theorem persist_higher_block_keeps_stored_fields
    (ts : list Transaction.t) (s : StakeRequestRepository.t)
    (i : nat) (t : Transaction.t) (found : StakeRequest.t)
    (b : BigNumber.t) (ms : list StakeRequest.t) :
  ts !! i = Some t ->
  StakeRequestRepository.rows s !! Transaction.stakeRequestHash t = Some found ->
  StakeRequest.blockNumber found = Some b ->
  BigNumber.gt (newBigNumber (Transaction.blockNumber t)) (Some b) = true ->
  settlement (persist ts s) = Fulfilled ms ->
  let r :=
    {| StakeRequest.stakeRequestHash := StakeRequest.stakeRequestHash found;
       StakeRequest.amount := StakeRequest.amount found;
       StakeRequest.beneficiary := StakeRequest.beneficiary found;
       StakeRequest.gasPrice := StakeRequest.gasPrice found;
       StakeRequest.gasLimit := StakeRequest.gasLimit found;
       StakeRequest.nonce := StakeRequest.nonce found;
       StakeRequest.gateway := StakeRequest.gateway found;
       StakeRequest.staker := StakeRequest.staker found;
       StakeRequest.stakerProxy := StakeRequest.stakerProxy found;
       StakeRequest.blockNumber := Some (newBigNumber (Transaction.blockNumber t));
       StakeRequest.messageHash := None |} in
  ms !! i = Some r /\ saved (trace (persist ts s)) !! i = Some r.
Proof.
  intros Hi Hrow Hb Hgt Hms r.
  destruct (persist_lookup ts s ms i t Hms Hi) as (m & Hm & Hsv & Hr).
  apply resolve_fulfilled in Hr as (a & _ & _ & ->).
  rewrite Hrow in Hm, Hsv. cbn [reconciled] in Hm, Hsv.
  rewrite Hb, Hgt in Hm, Hsv.
  now split.
Qed.

(** C2. For every input event such that either no record is stored for its
    request hash, or a record is stored whose block number is greater than
    or equal to the event's parsed block number, the record [persist]
    resolves and saves for that event is a brand-new record built entirely
    from the event's normalized fields (checksummed addresses, parsed
    numerics) with the message hash absent; saved, it takes the place of
    the row stored under that hash, message hash included, when no other
    event of the batch carries the hash. *)
Theorem persist_otherwise_builds_new_record
    (ts : list Transaction.t) (s : StakeRequestRepository.t)
    (i : nat) (t : Transaction.t) (ms : list StakeRequest.t) :
  ts !! i = Some t ->
  (StakeRequestRepository.rows s !! Transaction.stakeRequestHash t = None
   \/ exists found b,
        StakeRequestRepository.rows s !! Transaction.stakeRequestHash t = Some found
        /\ StakeRequest.blockNumber found = Some b
        /\ BigNumber.lte (newBigNumber (Transaction.blockNumber t)) (Some b) = true) ->
  settlement (persist ts s) = Fulfilled ms ->
  exists be ga st sp,
    toChecksumAddress Web3Utils_toChecksumAddress (Transaction.beneficiary t) = Fulfilled be
    /\ toChecksumAddress Web3Utils_toChecksumAddress (Transaction.gateway t) = Fulfilled ga
    /\ toChecksumAddress Web3Utils_toChecksumAddress (Transaction.staker t) = Fulfilled st
    /\ toChecksumAddress Web3Utils_toChecksumAddress (Transaction.stakerProxy t) = Fulfilled sp
    /\ let r :=
         {| StakeRequest.stakeRequestHash := Transaction.stakeRequestHash t;
            StakeRequest.amount := newBigNumber (Transaction.amount t);
            StakeRequest.beneficiary := be;
            StakeRequest.gasPrice := newBigNumber (Transaction.gasPrice t);
            StakeRequest.gasLimit := newBigNumber (Transaction.gasLimit t);
            StakeRequest.nonce := newBigNumber (Transaction.nonce t);
            StakeRequest.gateway := ga;
            StakeRequest.staker := st;
            StakeRequest.stakerProxy := sp;
            StakeRequest.blockNumber := Some (newBigNumber (Transaction.blockNumber t));
            StakeRequest.messageHash := None |} in
       ms !! i = Some r
       /\ saved (trace (persist ts s)) !! i = Some r
       /\ (keyed s ->
           (forall j t', ts !! j = Some t' ->
              Transaction.stakeRequestHash t' = Transaction.stakeRequestHash t ->
              j = i) ->
           StakeRequestRepository.rows (storeAfter (persist ts s))
             !! Transaction.stakeRequestHash t = Some r).
Proof.
  intros Hi Hcase Hms.
  destruct (persist_lookup ts s ms i t Hms Hi) as (m & Hm & Hsv & Hr).
  apply resolve_fulfilled in Hr as ([[[be ga] st] sp] & Hcs & _ & Hrec).
  destruct (checksums_fulfilled t be ga st sp Hcs) as (H1 & H2 & H3 & H4).
  exists be, ga, st, sp. repeat (split; [assumption|]).
  assert (Hfresh : m = fresh newBigNumber t (be, ga, st, sp)).
  { rewrite Hrec. destruct Hcase as [->|(found & b & -> & Hb & Hle)];
      [reflexivity|].
    cbn [reconciled]. rewrite Hb. now rewrite (lte_not_gt _ _ Hle). }
  clear Hrec. subst m. cbn [fresh StakeRequest.new] in Hm, Hsv.
  cbn zeta. split; [exact Hm|]. split; [exact Hsv|].
  intros Hk Huniq.
  destruct (persist_fulfilled ts s ms Hms) as (Hall & Hok & _ & ->).
  cbn [storeAfter StakeRequestRepository.withRows StakeRequestRepository.rows snd].
  apply resolve_all_fulfilled in Hall.
  set (r := {| StakeRequest.stakeRequestHash := Transaction.stakeRequestHash t |}) in *.
  change (Transaction.stakeRequestHash t) with (StakeRequest.stakeRequestHash r) at 1.
  apply (applySaves_unique _ _ _ i r Hm).
  - intros j m' Hj Heq.
    destruct (Forall2_lookup_r _ _ _ _ _ Hall Hj) as (t' & Ht' & Hr').
    apply resolve_fulfilled in Hr' as (a' & _ & _ & ->).
    rewrite (reconciled_hash t' s a' Hk) in Heq.
    now apply (Huniq j t' Ht').
  - rewrite Forall_lookup in Hok. now apply (Hok i r).
Qed.


(** C4. For every input event, whichever branch is taken, the record
    [persist] resolves for it has the message hash absent; [persist] never
    produces or saves a record with a message hash. *)
Theorem persist_never_keeps_messageHash
    (ts : list Transaction.t) (s : StakeRequestRepository.t) :
  Forall (fun r => StakeRequest.messageHash r = None)
         (saved (trace (persist ts s)))
  /\ forall ms, settlement (persist ts s) = Fulfilled ms ->
                Forall (fun r => StakeRequest.messageHash r = None) ms.
Proof.
  assert (Hres : forall ms,
             settlement (Promise_all (map resolve ts) s) = Fulfilled ms ->
             Forall (fun r => StakeRequest.messageHash r = None) ms).
  { intros ms H. apply resolve_all_fulfilled in H.
    apply Forall_lookup_2. intros j m Hj.
    destruct (Forall2_lookup_r _ _ _ _ _ H Hj) as (t & _ & Hr).
    apply resolve_fulfilled in Hr as (a & _ & _ & ->).
    apply reconciled_messageHash. }
  split.
  - rewrite persist_saved.
    destruct (settlement (Promise_all (map resolve ts) s)) as [ms|e] eqn:E;
      [now apply Hres | constructor].
  - intros ms H. apply persist_fulfilled in H as (H & _). now apply Hres.
Qed.

(** C5. For every sequence of input events on which [persist] succeeds,
    the returned sequence holds exactly one record per input event, and
    the i-th returned record is the one resolved from the i-th event. *)
Theorem persist_one_record_per_event_in_order
    (ts : list Transaction.t) (s : StakeRequestRepository.t)
    (ms : list StakeRequest.t) :
  settlement (persist ts s) = Fulfilled ms ->
  length ms = length ts
  /\ forall i t, ts !! i = Some t ->
       exists m, ms !! i = Some m /\ settlement (resolve t s) = Fulfilled m.
Proof.
  intros H. split.
  - apply persist_fulfilled in H as (H & _).
    apply resolve_all_fulfilled in H. symmetry. exact (Forall2_length _ _ _ H).
  - intros i t Hi.
    destruct (persist_lookup ts s ms i t H Hi) as (m & Hm & _ & Hr).
    now exists m.
Qed.

(** C6. Calling [persist] twice with the same single event whose block
    number does not exceed the stored one is idempotent: the second call
    resolves and stores a record equal to the one stored by the first. *)
Theorem persist_twice_at_same_height
    (t : Transaction.t) (s : StakeRequestRepository.t)
    (found : StakeRequest.t) (b : BigNumber.t) (ms : list StakeRequest.t) :
  StakeRequestRepository.rows s !! Transaction.stakeRequestHash t = Some found ->
  StakeRequest.blockNumber found = Some b ->
  BigNumber.lte (newBigNumber (Transaction.blockNumber t)) (Some b) = true ->
  settlement (persist [t] s) = Fulfilled ms ->
  let s1 := storeAfter (persist [t] s) in
  settlement (persist [t] s1) = Fulfilled ms
  /\ storeAfter (persist [t] s1) = s1
  /\ exists r, ms = [r]
       /\ StakeRequestRepository.rows s1 !! Transaction.stakeRequestHash t = Some r
       /\ StakeRequestRepository.rows (storeAfter (persist [t] s1))
            !! Transaction.stakeRequestHash t = Some r.
Proof.
  intros Hrow Hb Hle Hms s1.
  destruct (persist_fulfilled [t] s ms Hms) as (Hall & Hok & _ & Hs1).
  apply resolve_all_fulfilled in Hall.
  apply Forall2_cons_inv_l in Hall as (m & l & Hr & Hnil & ->).
  apply Forall2_nil_inv_l in Hnil as ->.
  apply resolve_fulfilled in Hr as (a & Hcs & Hget & Hm).
  rewrite Hrow in Hm. cbn [reconciled] in Hm.
  rewrite Hb, (lte_not_gt _ _ Hle) in Hm.
  apply Forall_cons_1 in Hok as [Hok _].
  assert (Hh : StakeRequest.stakeRequestHash m = Transaction.stakeRequestHash t).
  { rewrite Hm. now destruct a as [[[? ?] ?] ?]. }
  assert (Hbn : StakeRequest.blockNumber m
                = Some (newBigNumber (Transaction.blockNumber t))).
  { rewrite Hm. now destruct a as [[[? ?] ?] ?]. }
  assert (Es1 : s1 = StakeRequestRepository.withRows
                       (<[Transaction.stakeRequestHash t := m]>
                          (StakeRequestRepository.rows s)) s).
  { unfold s1. rewrite Hs1, applySaves_cons, Hok, Hh. reflexivity. }
  assert (Hrow1 : StakeRequestRepository.rows s1
                    !! Transaction.stakeRequestHash t = Some m).
  { rewrite Es1. cbn. apply lookup_insert_eq. }
  assert (Hres : settlement (Promise_all (map resolve [t]) s1) = Fulfilled [m]).
  { cbn [map]. rewrite Promise_all_cons, resolve_run, Hcs.
    cbn [settlement storeAfter fst snd Promise_all].
    replace (StakeRequestRepository.getFails s1 (Transaction.stakeRequestHash t))
      with false by (now rewrite Es1).
    rewrite Hrow1. cbn [reconciled]. rewrite Hbn, gt_irrefl. now rewrite <- Hm. }
  assert (Hrun : persist [t] s1 = (Fulfilled [m], trace (persist [t] s1), s1)).
  { rewrite persist_run at 1. rewrite Hres.
    destruct (save_all_run [m] s1) as (Ht & Hs & Hr).
    rewrite Hs, Hr.
    replace (StakeRequestRepository.saveFails s1) with
      (StakeRequestRepository.saveFails s) by (now rewrite Es1).
    rewrite filter_cons, Hok, decide_False by discriminate.
    rewrite filter_nil, applySaves_cons, Hok, Hh.
    f_equal; [f_equal|].
    - rewrite (persist_run [t] s1), Hres. reflexivity.
    - rewrite Es1. cbn. now rewrite insert_insert_eq. }
  rewrite Hrun. cbn [settlement storeAfter fst snd].
  split; [reflexivity|]. split; [reflexivity|].
  exists m. now repeat split.
Qed.

(** C7. For every batch, [persist] passes every resolved record to the
    store's [save] exactly once, the records changed in place included,
    and it returns only after the save of every resolved record has
    completed. *)
Theorem persist_saves_each_resolved_record_once
    (ts : list Transaction.t) (s : StakeRequestRepository.t) :
  (forall models,
      settlement (Promise_all (map resolve ts) s) = Fulfilled models ->
      saved (trace (persist ts s)) = models)
  /\ (forall ms,
        settlement (persist ts s) = Fulfilled ms ->
        saved (trace (persist ts s)) = ms
        /\ completed (trace (persist ts s)) = ms).
Proof.
  split.
  - intros models H. now rewrite persist_saved, H.
  - intros ms H.
    destruct (persist_fulfilled ts s ms H) as (Hall & Hok & Htr & _).
    split; [now rewrite persist_saved, Hall|].
    rewrite Htr, completed_app, (completed_saveEvents _ _ Hok).
    replace (completed (trace (Promise_all (map resolve ts) s))) with
      (@nil StakeRequest.t); [reflexivity|].
    symmetry. apply elem_of_nil_inv. intros r Hr.
    apply list_elem_of_omap in Hr as (e & He & Hsome).
    assert (Hsv : r ∈ saved (trace (Promise_all (map resolve ts) s))).
    { apply list_elem_of_omap. exists e. split; [exact He|].
      now destruct e as [| ? []|]. }
    rewrite resolve_all_no_save in Hsv. now apply elem_of_nil in Hsv.
Qed.

(** C8. For every batch, if any [get] or [save] of the store fails, the
    [persist] call itself rejects; no failure of the store is swallowed. *)
Theorem persist_propagates_store_failure
    (ts : list Transaction.t) (s : StakeRequestRepository.t) (e : Event) :
  e ∈ trace (persist ts s) ->
  failed e = true ->
  isRejected (settlement (persist ts s)) = true.
Proof.
  rewrite persist_run.
  destruct (settlement (Promise_all (map resolve ts) s)) as [ms|r] eqn:E;
    cbn [settlement trace fst snd]; [|reflexivity].
  intros Hin Hfail. apply elem_of_app in Hin as [Hin|Hin].
  - apply resolve_all_trace in Hin as (t & Ht & Hin).
    apply resolve_all_fulfilled in E.
    apply list_elem_of_lookup_1 in Ht as [i Hi].
    destruct (Forall2_lookup_l _ _ _ _ _ E Hi) as (m & _ & Hr).
    rewrite (resolve_fulfilled_no_failure t s e) in Hfail;
      [discriminate | now rewrite Hr | exact Hin].
  - destruct (save_all_run ms s) as (Ht & _ & ->). rewrite Ht in Hin.
    apply list_elem_of_fmap_1 in Hin as (m & -> & Hm).
    cbn in Hfail. apply negb_true_iff in Hfail.
    apply negb_false_iff in Hfail.
    assert (Hf : m ∈ filter (fun m => StakeRequestRepository.saveFails s
                                (StakeRequest.stakeRequestHash m) = true) ms)
      by (now apply list_elem_of_filter).
    destruct (filter _ ms); [now apply elem_of_nil in Hf | reflexivity].
Qed.

(** C9. For the empty batch, [persist] succeeds, returns the empty
    sequence, performs no operation on the store and leaves it as it
    was. *)
Theorem persist_empty_batch (s : StakeRequestRepository.t) :
  settlement (persist [] s) = Fulfilled []
  /\ trace (persist [] s) = []
  /\ saved (trace (persist [] s)) = []
  /\ storeAfter (persist [] s) = s.
Proof. now repeat split. Qed.

(** C10. Under the precondition that every record the store's [get]
    returns has a block number, the non-null assertion on the stored
    block number in [persist] is never applied to an absent value. *)
Theorem persist_assertion_never_violated
    (ts : list Transaction.t) (s : StakeRequestRepository.t) (e : Event) :
  (forall k r, StakeRequestRepository.rows s !! k = Some r ->
               is_Some (StakeRequest.blockNumber r)) ->
  e ∈ trace (persist ts s) ->
  violated e = false.
Proof.
  intros Hpre. rewrite persist_run.
  assert (Hres : e ∈ trace (Promise_all (map resolve ts) s) -> violated e = false).
  { intros Hin. apply resolve_all_trace in Hin as (t & _ & Hin).
    now apply (resolve_no_violation t s e Hpre). }
  destruct (settlement (Promise_all (map resolve ts) s)) as [ms|r];
    cbn [trace fst snd]; [|exact Hres].
  intros Hin. apply elem_of_app in Hin as [Hin|Hin]; [now apply Hres|].
  destruct (save_all_run ms s) as (Ht & _ & _). rewrite Ht in Hin.
  now apply list_elem_of_fmap_1 in Hin as (m & -> & _).
Qed.

End Persist.

(** ** The libraries on known values *)

(** Keccak-256 of the empty string. *)
Example keccak256_empty :
  Keccak.keccak256 [] =
  [0xc5; 0xd2; 0x46; 0x01; 0x86; 0xf7; 0x23; 0x3c; 0x92; 0x7e; 0x7d; 0xb2;
   0xdc; 0xc7; 0x03; 0xc0; 0xe5; 0x00; 0xb6; 0x53; 0xca; 0x82; 0x27; 0x3b;
   0x7b; 0xfa; 0xd8; 0x04; 0x5d; 0x85; 0xa4; 0x70].
Proof. vm_compute. reflexivity. Qed.

(** The four mixed-case addresses of EIP-55. *)
Example toChecksumAddress_known :
  map Web3Utils.toChecksumAddress
    [Scenario.beneficiary; Scenario.gateway; Scenario.staker;
     "0XD1220A0CF47C7B9BE7A2E6BA89F429762E7B9ADB"]
  = [Fulfilled "0x5aAeb6053F3E94C9b9A09f33669435E7Ef1BeAed";
     Fulfilled "0xfB6916095ca1df60bB79Ce92cE3Ea74c37c5d359";
     Fulfilled "0xdbF03B407c01E7cD3CBea99509d93f8DDDC8C6FB";
     Fulfilled "0xD1220A0cf47c7B9Be7A2E6BA89F429762e7b9aDb"].
Proof. vm_compute. reflexivity. Qed.

Example toChecksumAddress_throws :
  map Web3Utils.toChecksumAddress
    ["0x1234"; ""; "0x5aaeb6053f3e94c9b9a09f33669435e7ef1beaeg"]
  = [Rejected (InvalidAddress "0x1234"); Rejected (InvalidAddress "");
     Rejected (InvalidAddress "0x5aaeb6053f3e94c9b9a09f33669435e7ef1beaeg")].
Proof. vm_compute. reflexivity. Qed.

Example ofString_known :
  map BigNumber.ofString
    ["100"; "105"; "1.50"; "-12.500e-3"; "1E+2"; ".5"; "Infinity"; "abc"; ""; "1e"]
  = [BigNumber.Finite 1 2; BigNumber.Finite 105 0; BigNumber.Finite 15 (-1);
     BigNumber.Finite (-125) (-4); BigNumber.Finite 1 2;
     BigNumber.Finite 5 (-1); BigNumber.Infinity false; BigNumber.NaN;
     BigNumber.NaN; BigNumber.NaN].
Proof. vm_compute. reflexivity. Qed.

(** ** Runs on the sample data *)

(** The first sighting of a request on an empty store. *)
Example first_sighting :
  settlement (Scenario.run [Scenario.sighting] Scenario.emptyStore)
  = Fulfilled [StakeRequest.setMessageHash None Scenario.linked]
  /\ StakeRequestRepository.rows
       (storeAfter (Scenario.run [Scenario.sighting] Scenario.emptyStore))
       !! "0xAA"
     = Some (StakeRequest.setMessageHash None Scenario.linked).
Proof. split; vm_compute; reflexivity. Qed.

(** A later sighting of a linked request moves its block and unlinks it. *)
Example later_sighting :
  StakeRequestRepository.rows
    (storeAfter (Scenario.run [Scenario.laterSighting] Scenario.linkedStore))
    !! "0xAA"
  = Some (StakeRequest.setMessageHash None
            (StakeRequest.setBlockNumber (Some (BigNumber.Finite 105 0))
               Scenario.linked)).
Proof. vm_compute. reflexivity. Qed.

(** A sighting at a block not above the stored one, after that, writes the
    row anew from the event. *)
Example earlier_sighting_again :
  let s1 := storeAfter (Scenario.run [Scenario.laterSighting] Scenario.linkedStore) in
  StakeRequestRepository.rows
    (storeAfter (Scenario.run [Scenario.sighting] s1)) !! "0xAA"
  = Some (StakeRequest.setMessageHash None Scenario.linked).
Proof. vm_compute. reflexivity. Qed.

(** A stored row without a block number: the assertion is applied to an
    absent value, the comparison is false and the row is written anew. *)
Example unnumbered_row :
  let s := StakeRequestRepository.withRows {[ "0xAA" := Scenario.unnumbered ]}
             Scenario.emptyStore in
  trace (Scenario.run [Scenario.laterSighting] s) !! 1%nat
  = Some (NonNullAssertion false)
  /\ (exists r, settlement (Scenario.run [Scenario.laterSighting] s) = Fulfilled [r]
               /\ StakeRequest.amount r = BigNumber.Finite 99 0).
Proof. split; [vm_compute; reflexivity|]. eexists. split; vm_compute; reflexivity. Qed.

(** A malformed amount is kept as NaN, and the record is stored. *)
Example garbled_amount_is_stored :
  exists r,
    settlement (Scenario.run [Scenario.garbledAmount] Scenario.emptyStore)
    = Fulfilled [r]
    /\ StakeRequest.amount r = BigNumber.NaN
    /\ StakeRequestRepository.rows
         (storeAfter (Scenario.run [Scenario.garbledAmount] Scenario.emptyStore))
         !! "0xCC" = Some r.
Proof. eexists. repeat split; vm_compute; reflexivity. Qed.

(** ** The claims on the sample data *)

Lemma persist_higher_block_keeps_stored_fields_witness :
  BigNumber.gt
    (BigNumber.ofString (Transaction.blockNumber Scenario.laterSighting))
    (StakeRequest.blockNumber Scenario.linked) = true
  /\ (let r := StakeRequest.setMessageHash None
                 (StakeRequest.setBlockNumber (Some (BigNumber.Finite 105 0))
                    Scenario.linked) in
      [r] !! 0%nat = Some r
      /\ saved (trace (Scenario.run [Scenario.laterSighting] Scenario.linkedStore))
           !! 0%nat = Some r).
Proof.
  split; [vm_compute; reflexivity|].
  apply (persist_higher_block_keeps_stored_fields
           BigNumber.ofString Web3Utils.toChecksumAddress
           [Scenario.laterSighting] Scenario.linkedStore 0
           Scenario.laterSighting Scenario.linked (BigNumber.Finite 1 2));
    vm_compute; reflexivity.
Defined.

Lemma persist_otherwise_builds_new_record_witness :
  BigNumber.lte
    (BigNumber.ofString (Transaction.blockNumber Scenario.sighting))
    (StakeRequest.blockNumber Scenario.linked) = true
  /\ StakeRequestRepository.rows
       (storeAfter (Scenario.run [Scenario.sighting] Scenario.linkedStore))
       !! "0xAA"
     = Some (StakeRequest.setMessageHash None Scenario.linked).
Proof.
  split; [vm_compute; reflexivity|].
  destruct (persist_otherwise_builds_new_record
              BigNumber.ofString Web3Utils.toChecksumAddress
              [Scenario.sighting] Scenario.linkedStore 0 Scenario.sighting
              [StakeRequest.setMessageHash None Scenario.linked])
    as (be & ga & st & sp & Hbe & Hga & Hst & Hsp & _ & _ & Hrow).
  - reflexivity.
  - right. exists Scenario.linked, (BigNumber.Finite 1 2).
    repeat split; vm_compute; reflexivity.
  - vm_compute. reflexivity.
  - vm_compute in Hbe, Hga, Hst, Hsp.
    injection Hbe as <-. injection Hga as <-.
    injection Hst as <-. injection Hsp as <-.
    apply Hrow.
    + intros k r H. unfold Scenario.linkedStore in H.
      cbn [StakeRequestRepository.rows] in H.
      apply lookup_singleton_Some in H as [<- <-]. reflexivity.
    + intros [|j] t' Hj _; [reflexivity | discriminate].
Defined.



Lemma persist_never_keeps_messageHash_witness :
  StakeRequest.messageHash Scenario.linked = Some "0xMM"
  /\ Forall (fun r => StakeRequest.messageHash r = None)
            (saved (trace (Scenario.run [Scenario.laterSighting; Scenario.sighting]
                             Scenario.linkedStore)))
  /\ Forall (fun r => StakeRequest.messageHash r = None)
            [StakeRequest.setMessageHash None
               (StakeRequest.setBlockNumber (Some (BigNumber.Finite 105 0))
                  Scenario.linked);
             StakeRequest.setMessageHash None Scenario.linked].
Proof.
  split; [reflexivity|].
  destruct (persist_never_keeps_messageHash
              BigNumber.ofString Web3Utils.toChecksumAddress
              [Scenario.laterSighting; Scenario.sighting] Scenario.linkedStore)
    as [Hsaved Hms].
  split; [exact Hsaved|].
  apply Hms. vm_compute. reflexivity.
Defined.

Lemma persist_one_record_per_event_in_order_witness :
  exists ms,
    settlement (Scenario.run [Scenario.sighting; Scenario.otherSighting]
                  Scenario.linkedStore) = Fulfilled ms
    /\ length ms = 2%nat
    /\ exists m, ms !! 1%nat = Some m
                 /\ StakeRequest.stakeRequestHash m = "0xBB".
Proof.
  assert (Hms : settlement (Scenario.run [Scenario.sighting; Scenario.otherSighting]
                              Scenario.linkedStore)
                = Fulfilled [StakeRequest.setMessageHash None Scenario.linked;
                             Scenario.otherRecord])
    by (vm_compute; reflexivity).
  exists [StakeRequest.setMessageHash None Scenario.linked; Scenario.otherRecord].
  split; [exact Hms|].
  destruct (persist_one_record_per_event_in_order
              BigNumber.ofString Web3Utils.toChecksumAddress
              [Scenario.sighting; Scenario.otherSighting] Scenario.linkedStore
              _ Hms) as [Hlen Hi].
  split; [exact Hlen|].
  destruct (Hi 1%nat Scenario.otherSighting eq_refl) as (m & Hm & _).
  exists m. split; [exact Hm|].
  injection Hm as <-. reflexivity.
Defined.

Lemma persist_twice_at_same_height_witness :
  let s1 := storeAfter (Scenario.run [Scenario.sighting] Scenario.linkedStore) in
  settlement (Scenario.run [Scenario.sighting] Scenario.linkedStore)
  = Fulfilled [StakeRequest.setMessageHash None Scenario.linked]
  /\ settlement (Scenario.run [Scenario.sighting] s1)
     = Fulfilled [StakeRequest.setMessageHash None Scenario.linked]
  /\ storeAfter (Scenario.run [Scenario.sighting] s1) = s1.
Proof.
  intros s1. split; [vm_compute; reflexivity|].
  destruct (persist_twice_at_same_height
              BigNumber.ofString Web3Utils.toChecksumAddress
              Scenario.sighting Scenario.linkedStore Scenario.linked
              (BigNumber.Finite 1 2)
              [StakeRequest.setMessageHash None Scenario.linked])
    as (H1 & H2 & _); try (vm_compute; reflexivity).
  split; [exact H1 | exact H2].
Defined.

Lemma persist_saves_each_resolved_record_once_witness :
  let ms := [StakeRequest.setMessageHash None
               (StakeRequest.setBlockNumber (Some (BigNumber.Finite 105 0))
                  Scenario.linked);
             Scenario.otherRecord] in
  settlement (Scenario.run [Scenario.laterSighting; Scenario.otherSighting]
                Scenario.linkedStore) = Fulfilled ms
  /\ saved (trace (Scenario.run [Scenario.laterSighting; Scenario.otherSighting]
                     Scenario.linkedStore)) = ms
  /\ completed (trace (Scenario.run [Scenario.laterSighting; Scenario.otherSighting]
                         Scenario.linkedStore)) = ms.
Proof.
  intros ms.
  assert (Hms : settlement (Scenario.run [Scenario.laterSighting; Scenario.otherSighting]
                              Scenario.linkedStore) = Fulfilled ms)
    by (vm_compute; reflexivity).
  split; [exact Hms|].
  exact (proj2 (persist_saves_each_resolved_record_once
                  BigNumber.ofString Web3Utils.toChecksumAddress
                  [Scenario.laterSighting; Scenario.otherSighting]
                  Scenario.linkedStore) ms Hms).
Defined.

Lemma persist_propagates_store_failure_witness :
  Save Scenario.otherRecord false
    ∈ trace (Scenario.run [Scenario.sighting; Scenario.otherSighting]
               Scenario.failingStore)
  /\ isRejected (settlement (Scenario.run [Scenario.sighting; Scenario.otherSighting]
                               Scenario.failingStore)) = true.
Proof.
  assert (Hin : Save Scenario.otherRecord false
                  ∈ trace (Scenario.run [Scenario.sighting; Scenario.otherSighting]
                             Scenario.failingStore)).
  { vm_compute. do 4 apply list_elem_of_further. apply list_elem_of_here. }
  split; [exact Hin|].
  apply (persist_propagates_store_failure
           BigNumber.ofString Web3Utils.toChecksumAddress
           [Scenario.sighting; Scenario.otherSighting] Scenario.failingStore
           (Save Scenario.otherRecord false) Hin).
  reflexivity.
Defined.

Lemma persist_assertion_never_violated_witness :
  NonNullAssertion true
    ∈ trace (Scenario.run [Scenario.laterSighting] Scenario.linkedStore)
  /\ violated (NonNullAssertion true) = false.
Proof.
  assert (Hin : NonNullAssertion true
                  ∈ trace (Scenario.run [Scenario.laterSighting]
                             Scenario.linkedStore)).
  { vm_compute. apply list_elem_of_further, list_elem_of_here. }
  split; [exact Hin|].
  apply (persist_assertion_never_violated
           BigNumber.ofString Web3Utils.toChecksumAddress
           [Scenario.laterSighting] Scenario.linkedStore);
    [|exact Hin].
  intros k r H. unfold Scenario.linkedStore in H.
  cbn [StakeRequestRepository.rows] in H.
  apply lookup_singleton_Some in H as [_ <-].
  eexists. reflexivity.
Defined.

(** ** Further facts about [persist] *)

Lemma applySaves_lookup_inv (fails : string -> bool) (ms : list StakeRequest.t)
    (rows : gmap string StakeRequest.t) (k : string) (r : StakeRequest.t) :
  applySaves fails ms rows !! k = Some r ->
  rows !! k = Some r \/ (r ∈ ms /\ StakeRequest.stakeRequestHash r = k).
Proof.
  revert rows. induction ms as [|m ms IH]; intros rows H; [now left|].
  rewrite applySaves_cons in H. apply IH in H as [H|[Hin Hk]].
  - destruct (fails _); [now left|].
    destruct (decide (StakeRequest.stakeRequestHash m = k)) as [E|E].
    + rewrite E, lookup_insert_eq in H. injection H as <-.
      right. split; [apply list_elem_of_here | exact E].
    + rewrite lookup_insert_ne in H by exact E. now left.
  - right. split; [now apply list_elem_of_further | exact Hk].
Qed.

Lemma gets_app (tr tr' : list Event) : gets (tr ++ tr') = gets tr ++ gets tr'.
Proof. unfold gets. apply omap_app. Qed.

Lemma gets_saveEvents (fails : string -> bool) (ms : list StakeRequest.t) :
  gets (map (saveEvent fails) ms) = [].
Proof. induction ms as [|m ms IH]; [reflexivity | exact IH]. Qed.

Section Further.

Variable newBigNumber : string -> BigNumber.t.
Variable Web3Utils_toChecksumAddress : string -> Settled string.

Abbreviation resolve := (resolve newBigNumber Web3Utils_toChecksumAddress).
Abbreviation persist := (persist newBigNumber Web3Utils_toChecksumAddress).
Abbreviation checksums := (checksums Web3Utils_toChecksumAddress).
Abbreviation reconciled := (reconciled newBigNumber).
Abbreviation resolve_run := (resolve_run newBigNumber Web3Utils_toChecksumAddress).
Abbreviation persist_run := (persist_run newBigNumber Web3Utils_toChecksumAddress).

(** The trace of [persist]: the callbacks, then the saves if there are
    any. *)
Lemma persist_trace (ts : list Transaction.t) (s : StakeRequestRepository.t) :
  trace (persist ts s) =
  trace (Promise_all (map resolve ts) s)
  ++ match settlement (Promise_all (map resolve ts) s) with
     | Fulfilled ms => map (saveEvent (StakeRequestRepository.saveFails s)) ms
     | Rejected _ => []
     end.
Proof.
  rewrite persist_run.
  destruct (settlement (Promise_all (map resolve ts) s)) as [ms|e];
    cbn [trace fst snd]; [|now rewrite app_nil_r].
  now destruct (save_all_run ms s) as (-> & _ & _).
Qed.

(** The store [persist] leaves. *)
Lemma persist_store (ts : list Transaction.t) (s : StakeRequestRepository.t) :
  storeAfter (persist ts s) =
  match settlement (Promise_all (map resolve ts) s) with
  | Fulfilled ms =>
      StakeRequestRepository.withRows
        (applySaves (StakeRequestRepository.saveFails s) ms
           (StakeRequestRepository.rows s)) s
  | Rejected _ => s
  end.
Proof.
  rewrite persist_run.
  destruct (settlement (Promise_all (map resolve ts) s)) as [ms|e];
    cbn [storeAfter snd]; [|reflexivity].
  now destruct (save_all_run ms s) as (_ & -> & _).
Qed.

(** The resolved records, each against its transaction. *)
Lemma resolved_records (ts : list Transaction.t) (s : StakeRequestRepository.t)
    (ms : list StakeRequest.t) :
  settlement (Promise_all (map resolve ts) s) = Fulfilled ms ->
  Forall2
    (fun t m =>
       exists a, checksums t = Fulfilled a
                 /\ StakeRequestRepository.getFails s (Transaction.stakeRequestHash t) = false
                 /\ m = reconciled
                          (StakeRequestRepository.rows s !! Transaction.stakeRequestHash t)
                          t a)
    ts ms.
Proof.
  intros H. apply resolve_all_fulfilled in H.
  eapply Forall2_impl; [exact H|]. intros t m Hr.
  exact (resolve_fulfilled newBigNumber Web3Utils_toChecksumAddress t s m Hr).
Qed.

(** The rows [persist] leaves come from the rows it found or from the
    resolved records. *)
Lemma persist_rows_inv (ts : list Transaction.t) (s : StakeRequestRepository.t)
    (k : string) (r : StakeRequest.t) :
  StakeRequestRepository.rows (storeAfter (persist ts s)) !! k = Some r ->
  StakeRequestRepository.rows s !! k = Some r
  \/ exists t a, t ∈ ts
       /\ checksums t = Fulfilled a
       /\ r = reconciled
                (StakeRequestRepository.rows s !! Transaction.stakeRequestHash t) t a
       /\ StakeRequest.stakeRequestHash r = k.
Proof.
  rewrite persist_store.
  destruct (settlement (Promise_all (map resolve ts) s)) as [ms|e] eqn:E;
    [|now left].
  cbn [StakeRequestRepository.rows StakeRequestRepository.withRows].
  intros H. apply applySaves_lookup_inv in H as [H|[Hin Hk]]; [now left|].
  right. apply resolved_records in E.
  apply list_elem_of_lookup_1 in Hin as [i Hi].
  destruct (Forall2_lookup_r _ _ _ _ _ E Hi) as (t & Ht & a & Ha & _ & Hr).
  exists t, a. split; [now apply list_elem_of_lookup_2 in Ht|]. now repeat split.
Qed.

(** Whichever branch, the record settled on carries the transaction's
    block number. *)
Lemma reconciled_blockNumber (stored : option StakeRequest.t)
    (t : Transaction.t) (a : string * string * string * string) :
  StakeRequest.blockNumber (reconciled stored t a)
  = Some (newBigNumber (Transaction.blockNumber t)).
Proof.
  unfold reconciled. destruct stored as [found|].
  - destruct (BigNumber.gt _ _); [reflexivity|].
    now destruct a as [[[? ?] ?] ?].
  - now destruct a as [[[? ?] ?] ?].
Qed.

(** The callbacks write nothing. *)
Lemma resolve_all_no_write (ts : list Transaction.t)
    (s : StakeRequestRepository.t) (e : Event) :
  e ∈ trace (Promise_all (map resolve ts) s) -> isWrite e = false.
Proof.
  intros H. apply resolve_all_trace in H as (t & _ & H).
  rewrite resolve_trace in H.
  destruct (checksums t); [|now apply elem_of_nil in H].
  unfold lookupTrace in H.
  destruct (StakeRequestRepository.getFails s _).
  - now apply list_elem_of_singleton in H as ->.
  - apply elem_of_cons in H as [->|H]; [reflexivity|].
    destruct (StakeRequestRepository.rows s !! _).
    + now apply list_elem_of_singleton in H as ->.
    + now apply elem_of_nil in H.
Qed.

(** A record built by the second branch is built from the event. *)
Lemma fresh_builtFromEvent (t : Transaction.t)
    (a : string * string * string * string) :
  checksums t = Fulfilled a ->
  builtFromEvent newBigNumber Web3Utils_toChecksumAddress t
    (fresh newBigNumber t a).
Proof.
  destruct a as [[[be ga] st] sp]. intros H.
  destruct (checksums_fulfilled _ t be ga st sp H) as (H1 & H2 & H3 & H4).
  unfold builtFromEvent. cbn. now rewrite H1, H2, H3, H4.
Qed.

(** A comparison with a missing or not-a-number operand is not [gt]. *)
Lemma gt_unordered (x : BigNumber.t) (y : option BigNumber.t) :
  y = None \/ y = Some BigNumber.NaN \/ x = BigNumber.NaN ->
  BigNumber.gt x y = false.
Proof.
  intros [->|[->| ->]]; [now destruct x | now destruct x | reflexivity].
Qed.

(** A fulfilled callback followed by a save that does not fail is a
    fulfilled [persist] of the one transaction. *)
Lemma persist_single (t : Transaction.t) (s : StakeRequestRepository.t)
    (m : StakeRequest.t) :
  settlement (resolve t s) = Fulfilled m ->
  StakeRequestRepository.saveFails s (StakeRequest.stakeRequestHash m) = false ->
  settlement (persist [t] s) = Fulfilled [m].
Proof.
  intros Hr Hok.
  assert (Hall : settlement (Promise_all (map resolve [t]) s) = Fulfilled [m]).
  { rewrite resolve_all_cons. cbn [settlement fst]. now rewrite Hr. }
  rewrite persist_run, Hall. cbn [settlement fst].
  destruct (save_all_run [m] s) as (_ & _ & ->).
  rewrite filter_cons, Hok, decide_False by discriminate. reflexivity.
Qed.

(** On a store whose rows all have a block number, no event of a call
    records an assertion on a missing one. *)
Lemma numbered_no_violation (ts : list Transaction.t)
    (s : StakeRequestRepository.t) (e : Event) :
  numbered s -> e ∈ trace (persist ts s) -> violated e = false.
Proof.
  intros Hn. rewrite persist_trace. intros H.
  apply elem_of_app in H as [H|H].
  - apply resolve_all_trace in H as (t & _ & H).
    exact (resolve_no_violation newBigNumber Web3Utils_toChecksumAddress t s e Hn H).
  - destruct (settlement (Promise_all (map resolve ts) s));
      [|now apply elem_of_nil in H].
    now apply list_elem_of_fmap_1 in H as (m & -> & _).
Qed.

Lemma numbered_after (ts : list Transaction.t) (s : StakeRequestRepository.t) :
  numbered s -> numbered (storeAfter (persist ts s)).
Proof.
  intros Hn k r H. apply persist_rows_inv in H as [H|(t & a & _ & _ & -> & _)].
  - now apply (Hn k).
  - rewrite reconciled_blockNumber. now eexists.
Qed.

(** ** Further properties of [persist] *)

(** X1. Within a batch every event is resolved alone: the record a
    fulfilled [persist] returns for the event at position [i] is the
    record [persist] returns for that one event on the same store, so no
    event of a batch sees what another event of the batch saves, not even
    one with the same request hash. *)
Theorem persist_resolves_each_event_alone
    (ts : list Transaction.t) (s : StakeRequestRepository.t)
    (ms : list StakeRequest.t) (i : nat) (t : Transaction.t) :
  settlement (persist ts s) = Fulfilled ms ->
  ts !! i = Some t ->
  exists m, ms !! i = Some m /\ settlement (persist [t] s) = Fulfilled [m].
Proof.
  intros H Hi.
  destruct (persist_lookup newBigNumber Web3Utils_toChecksumAddress ts s ms i t H Hi) as (m & Hm & _ & Hr).
  exists m. split; [exact Hm|]. apply persist_single; [exact Hr|].
  apply persist_fulfilled in H as (_ & Hok & _).
  rewrite Forall_lookup in Hok. now apply (Hok i m).
Qed.

(** X2. [persist] reads before it writes: its trace is a run of reads of
    the store followed by a run of saves, so no [get] is issued after the
    first [save]. *)
Theorem persist_reads_before_writes
    (ts : list Transaction.t) (s : StakeRequestRepository.t) :
  exists reads writes,
    trace (persist ts s) = reads ++ writes
    /\ Forall (fun e => isWrite e = false) reads
    /\ Forall (fun e => isWrite e = true) writes.
Proof.
  eexists _, _. split; [apply persist_trace|]. split.
  - apply Forall_forall. intros e. apply resolve_all_no_write.
  - destruct (settlement (Promise_all (map resolve ts) s)); [|constructor].
    apply Forall_forall. intros e H.
    now apply list_elem_of_fmap_1 in H as (m & -> & _).
Qed.

(** X3. A failed [get] stops the batch before any write: [persist]
    rejects, hands no record to [save] and leaves the store as it was,
    also for the events whose own [get] succeeded. *)
Theorem persist_failed_get_writes_nothing
    (ts : list Transaction.t) (s : StakeRequestRepository.t) (h : string) :
  Get h false ∈ trace (persist ts s) ->
  isRejected (settlement (persist ts s)) = true
  /\ saved (trace (persist ts s)) = []
  /\ storeAfter (persist ts s) = s.
Proof.
  intros H.
  assert (Hrej : isRejected (settlement (Promise_all (map resolve ts) s)) = true).
  { rewrite persist_trace in H.
    destruct (settlement (Promise_all (map resolve ts) s)) as [ms|e] eqn:E;
      [|reflexivity].
    apply elem_of_app in H as [H|H].
    - apply resolve_all_trace in H as (t & Ht & H).
      apply resolve_all_fulfilled in E.
      apply list_elem_of_lookup_1 in Ht as [i Hi].
      destruct (Forall2_lookup_l _ _ _ _ _ E Hi) as (m & _ & Hr).
      assert (Hf : failed (Get h false) = false)
        by (apply (resolve_fulfilled_no_failure newBigNumber Web3Utils_toChecksumAddress t s); [now rewrite Hr | exact H]).
      discriminate Hf.
    - apply list_elem_of_fmap_1 in H as (m & Hm & _). discriminate Hm. }
  rewrite (persist_saved newBigNumber Web3Utils_toChecksumAddress ts s), persist_store, persist_run.
  now destruct (settlement (Promise_all (map resolve ts) s)).
Qed.

(** X4. [persist] does not roll back: a record handed to a [save] that
    does not fail is in the store afterwards, under its request hash,
    whether or not [persist] rejects because another save failed (for a
    hash that no other saved record of the batch carries). *)
Theorem persist_keeps_completed_saves
    (ts : list Transaction.t) (s : StakeRequestRepository.t)
    (i : nat) (m : StakeRequest.t) :
  saved (trace (persist ts s)) !! i = Some m ->
  StakeRequestRepository.saveFails s (StakeRequest.stakeRequestHash m) = false ->
  (forall j m', saved (trace (persist ts s)) !! j = Some m' ->
     StakeRequest.stakeRequestHash m' = StakeRequest.stakeRequestHash m ->
     j = i) ->
  StakeRequestRepository.rows (storeAfter (persist ts s))
    !! StakeRequest.stakeRequestHash m = Some m.
Proof.
  rewrite (persist_saved newBigNumber Web3Utils_toChecksumAddress ts s), persist_store.
  destruct (settlement (Promise_all (map resolve ts) s)) as [ms|e];
    [|discriminate].
  intros Hi Hok Huniq. now apply (applySaves_unique _ _ _ i).
Qed.

(** X5. Whichever branch is taken, the record [persist] returns for an
    event carries the event's parsed block number, also when the stored
    block number was higher. *)
Theorem persist_records_event_block_number
    (ts : list Transaction.t) (s : StakeRequestRepository.t)
    (ms : list StakeRequest.t) (i : nat) (t : Transaction.t)
    (m : StakeRequest.t) :
  settlement (persist ts s) = Fulfilled ms ->
  ts !! i = Some t ->
  ms !! i = Some m ->
  StakeRequest.blockNumber m = Some (newBigNumber (Transaction.blockNumber t)).
Proof.
  intros H Hi Hm.
  destruct (persist_lookup newBigNumber Web3Utils_toChecksumAddress ts s ms i t H Hi) as (m' & Hm' & _ & Hr).
  rewrite Hm in Hm'. injection Hm' as <-.
  apply resolve_fulfilled in Hr as (a & _ & _ & ->).
  apply reconciled_blockNumber.
Qed.

(** X6. On a store whose rows sit under their own request hash, the
    record [persist] returns for an event carries the event's request
    hash, so it is saved under the key it was looked up with. *)
Theorem persist_records_event_hash
    (ts : list Transaction.t) (s : StakeRequestRepository.t)
    (ms : list StakeRequest.t) (i : nat) (t : Transaction.t)
    (m : StakeRequest.t) :
  keyed s ->
  settlement (persist ts s) = Fulfilled ms ->
  ts !! i = Some t ->
  ms !! i = Some m ->
  StakeRequest.stakeRequestHash m = Transaction.stakeRequestHash t.
Proof.
  intros Hk H Hi Hm.
  destruct (persist_lookup newBigNumber Web3Utils_toChecksumAddress ts s ms i t H Hi) as (m' & Hm' & _ & Hr).
  rewrite Hm in Hm'. injection Hm' as <-.
  apply resolve_fulfilled in Hr as (a & _ & _ & ->).
  now apply reconciled_hash.
Qed.


(** X8. [persist] keeps every row numbered: if every row has a block
    number before the call, every row has one after it, however the call
    settles; every record it writes has one. *)
Theorem persist_keeps_store_numbered
    (ts : list Transaction.t) (s : StakeRequestRepository.t) :
  numbered s -> numbered (storeAfter (persist ts s)).
Proof. apply numbered_after. Qed.

(** X9. Over any sequence of [persist] calls on a store whose rows all
    have a block number (the empty store, for one), the non-null
    assertion on the stored block number never meets an absent value:
    the calls themselves keep up the condition it needs. *)
Theorem persistEach_assertion_never_violated
    (batches : list (list Transaction.t)) (s : StakeRequestRepository.t)
    (e : Event) :
  numbered s ->
  e ∈ (persistEach newBigNumber Web3Utils_toChecksumAddress batches s).1 ->
  violated e = false.
Proof.
  revert s. induction batches as [|ts batches IH]; intros s Hn H.
  - now apply elem_of_nil in H.
  - cbn [persistEach] in H.
    destruct (persistEach _ _ batches (storeAfter (persist ts s)))
      as [tr s'] eqn:E.
    cbn [fst] in H. apply elem_of_app in H as [H|H].
    + now apply (numbered_no_violation ts s).
    + apply (IH (storeAfter (persist ts s))); [now apply numbered_after|].
      now rewrite E.
Qed.

(** X10. On a keyed store [persist] touches only the rows of the batch: a
    row under a request hash that no event of the batch carries is after
    the call what it was before, however the call settles. *)
Theorem persist_leaves_other_rows
    (ts : list Transaction.t) (s : StakeRequestRepository.t) (h : string) :
  keyed s ->
  (forall t, t ∈ ts -> Transaction.stakeRequestHash t <> h) ->
  StakeRequestRepository.rows (storeAfter (persist ts s)) !! h
  = StakeRequestRepository.rows s !! h.
Proof.
  intros Hk Hother. rewrite persist_store.
  destruct (settlement (Promise_all (map resolve ts) s)) as [ms|e] eqn:E;
    [|reflexivity].
  cbn [StakeRequestRepository.rows StakeRequestRepository.withRows].
  apply applySaves_other. apply Forall_lookup_2. intros j m Hj.
  apply resolved_records in E.
  destruct (Forall2_lookup_r _ _ _ _ _ E Hj) as (t & Ht & a & _ & _ & ->).
  rewrite (reconciled_hash newBigNumber t s a Hk).
  apply Hother. now apply list_elem_of_lookup_2 in Ht.
Qed.

(** X11. When the two block numbers cannot be ordered (the stored record
    has none, or the stored or the parsed one is NaN) the comparison is
    false and the record is built anew from the event, as for a block
    number that is not higher. *)
Theorem persist_unordered_block_numbers_rebuild
    (ts : list Transaction.t) (s : StakeRequestRepository.t)
    (ms : list StakeRequest.t) (i : nat) (t : Transaction.t)
    (found m : StakeRequest.t) :
  ts !! i = Some t ->
  StakeRequestRepository.rows s !! Transaction.stakeRequestHash t = Some found ->
  StakeRequest.blockNumber found = None
  \/ StakeRequest.blockNumber found = Some BigNumber.NaN
  \/ newBigNumber (Transaction.blockNumber t) = BigNumber.NaN ->
  settlement (persist ts s) = Fulfilled ms ->
  ms !! i = Some m ->
  builtFromEvent newBigNumber Web3Utils_toChecksumAddress t m.
Proof.
  intros Hi Hrow Hun H Hm.
  destruct (persist_lookup newBigNumber Web3Utils_toChecksumAddress ts s ms i t H Hi) as (m' & Hm' & _ & Hr).
  rewrite Hm in Hm'. injection Hm' as <-.
  apply resolve_fulfilled in Hr as (a & Ha & _ & ->).
  rewrite Hrow. unfold reconciled.
  rewrite (gt_unordered _ _ Hun). now apply fresh_builtFromEvent.
Qed.

(** X12. [persist] calls [get] once for every event whose four addresses
    normalize, in the order of the batch, and for no other: an event with
    a bad address is not looked up, and it does not stop the lookups of
    the others. *)
Theorem persist_reads_each_normalized_event_once
    (ts : list Transaction.t) (s : StakeRequestRepository.t) :
  gets (trace (persist ts s))
  = map Transaction.stakeRequestHash
      (filter (fun t => addressesNormalize Web3Utils_toChecksumAddress t = true) ts).
Proof.
  rewrite persist_trace, gets_app.
  replace (gets match settlement (Promise_all (map resolve ts) s) with
                | Fulfilled ms => map (saveEvent (StakeRequestRepository.saveFails s)) ms
                | Rejected _ => []
                end) with (@nil string)
    by (destruct (settlement (Promise_all (map resolve ts) s));
        [now rewrite gets_saveEvents | reflexivity]).
  rewrite app_nil_r.
  induction ts as [|t ts IH]; [reflexivity|].
  rewrite resolve_all_cons. cbn [trace fst snd].
  rewrite gets_app, IH, filter_cons, resolve_trace.
  destruct (checksums t) as [a|e] eqn:Ec.
  - rewrite decide_True by (unfold addressesNormalize; now rewrite Ec).
    cbn [map]. f_equal. unfold lookupTrace.
    destruct (StakeRequestRepository.getFails s _); [reflexivity|].
    now destruct (StakeRequestRepository.rows s !! _).
  - rewrite decide_False by (unfold addressesNormalize; now rewrite Ec).
    reflexivity.
Qed.

(** X13. The stored fields kept by a higher-block re-delivery do not
    survive the same event once more: after the call that moved the
    record to the event's block, a second call with the event finds equal
    block numbers and writes the record anew from the event. *)
Theorem persist_same_event_after_rearm_rebuilds
    (t : Transaction.t) (s : StakeRequestRepository.t)
    (found : StakeRequest.t) (b : BigNumber.t) (ms : list StakeRequest.t) :
  StakeRequestRepository.rows s !! Transaction.stakeRequestHash t = Some found ->
  StakeRequest.stakeRequestHash found = Transaction.stakeRequestHash t ->
  StakeRequest.blockNumber found = Some b ->
  BigNumber.gt (newBigNumber (Transaction.blockNumber t)) (Some b) = true ->
  settlement (persist [t] s) = Fulfilled ms ->
  exists m2,
    settlement (persist [t] (storeAfter (persist [t] s))) = Fulfilled [m2]
    /\ builtFromEvent newBigNumber Web3Utils_toChecksumAddress t m2
    /\ StakeRequestRepository.rows
         (storeAfter (persist [t] (storeAfter (persist [t] s))))
         !! Transaction.stakeRequestHash t = Some m2.
Proof.
  intros Hrow Hh Hb Hgt Hms.
  set (s1 := storeAfter (persist [t] s)).
  destruct (persist_fulfilled newBigNumber Web3Utils_toChecksumAddress [t] s ms Hms) as (Hall & Hok & _ & Hs1).
  apply resolve_all_fulfilled in Hall.
  apply Forall2_cons_inv_l in Hall as (m & l & Hr & Hnil & ->).
  apply Forall2_nil_inv_l in Hnil as ->.
  apply resolve_fulfilled in Hr as (a & Hcs & Hget & Hm).
  rewrite Hrow in Hm. unfold reconciled in Hm. rewrite Hb, Hgt in Hm.
  apply Forall_cons_1 in Hok as [Hok _].
  assert (Hmh : StakeRequest.stakeRequestHash m = Transaction.stakeRequestHash t)
    by (now rewrite Hm).
  assert (Hbn : StakeRequest.blockNumber m
                = Some (newBigNumber (Transaction.blockNumber t)))
    by (now rewrite Hm).
  assert (Es1 : s1 = StakeRequestRepository.withRows
                       (<[Transaction.stakeRequestHash t := m]>
                          (StakeRequestRepository.rows s)) s).
  { unfold s1. rewrite Hs1, applySaves_cons, Hok, Hmh. reflexivity. }
  set (m2 := fresh newBigNumber t a).
  assert (Hm2h : StakeRequest.stakeRequestHash m2 = Transaction.stakeRequestHash t)
    by (unfold m2; now destruct a as [[[? ?] ?] ?]).
  assert (Hr2 : settlement (resolve t s1) = Fulfilled m2).
  { rewrite resolve_run, Hcs. cbn [settlement fst].
    replace (StakeRequestRepository.getFails s1 (Transaction.stakeRequestHash t))
      with false by (now rewrite Es1).
    replace (StakeRequestRepository.rows s1 !! Transaction.stakeRequestHash t)
      with (Some m) by (rewrite Es1; cbn; now rewrite lookup_insert_eq).
    unfold reconciled. now rewrite Hbn, gt_irrefl. }
  assert (Hok2 : StakeRequestRepository.saveFails s1
                   (StakeRequest.stakeRequestHash m2) = false)
    by (rewrite Hm2h, Es1; cbn; now rewrite <- Hmh).
  exists m2. split; [now apply persist_single|].
  split; [now apply fresh_builtFromEvent|].
  assert (Hall2 : settlement (Promise_all (map resolve [t]) s1) = Fulfilled [m2]).
  { rewrite resolve_all_cons. cbn [settlement fst]. now rewrite Hr2. }
  rewrite persist_store, Hall2.
  cbn [StakeRequestRepository.rows StakeRequestRepository.withRows].
  rewrite applySaves_cons, Hok2. cbn [applySaves fold_left].
  now rewrite Hm2h, lookup_insert_eq.
Qed.

(** The callback reads the addresses through [toChecksumAddress] only. *)
Lemma resolve_sameNormalized (t1 t2 : Transaction.t)
    (s : StakeRequestRepository.t) :
  sameNormalized Web3Utils_toChecksumAddress t1 t2 ->
  resolve t1 s = resolve t2 s.
Proof.
  intros (Eh & Eam & Egp & Egl & Eno & Ebn & E1 & E2 & E3 & E4).
  unfold resolve. now rewrite Eh, Eam, Egp, Egl, Eno, Ebn, E1, E2, E3, E4.
Qed.

(** X14. The raw address strings of an event never reach a record, a
    call on the store or the settlement: [persist] reads them through
    [toChecksumAddress] only, so two batches that agree on the request
    hashes and numeric fields and whose addresses normalize alike are
    handled exactly alike on the same store. *)
Theorem persist_reads_addresses_normalized_only
    (ts1 ts2 : list Transaction.t) (s : StakeRequestRepository.t) :
  Forall2 (sameNormalized Web3Utils_toChecksumAddress) ts1 ts2 ->
  persist ts1 s = persist ts2 s.
Proof.
  intros H.
  assert (Hall : Promise_all (map resolve ts1) s = Promise_all (map resolve ts2) s).
  { induction H as [|t1 t2 ts1 ts2 Ht _ IH]; [reflexivity|].
    rewrite !resolve_all_cons. now rewrite (resolve_sameNormalized t1 t2 s Ht), IH. }
  unfold persist, bind. now rewrite Hall.
Qed.

(** Among saves that do not fail, one of those under a key decides the row
    under it. *)
Lemma applySaves_some (fails : string -> bool) (ms : list StakeRequest.t)
    (rows : gmap string StakeRequest.t) (h : string) :
  Forall (fun m => fails (StakeRequest.stakeRequestHash m) = false) ms ->
  Exists (fun m => StakeRequest.stakeRequestHash m = h) ms ->
  exists j r, ms !! j = Some r
              /\ StakeRequest.stakeRequestHash r = h
              /\ applySaves fails ms rows !! h = Some r.
Proof.
  intros Hok. revert rows. induction Hok as [|m ms Hm Hok IH]; intros rows Hex.
  - now apply Exists_nil in Hex.
  - rewrite applySaves_cons, Hm.
    destruct (decide (Exists (fun m => StakeRequest.stakeRequestHash m = h) ms))
      as [Hin|Hout].
    + destruct (IH (<[StakeRequest.stakeRequestHash m := m]> rows) Hin)
        as (j & r & Hj & Hr & Hrow).
      now exists (S j), r.
    + apply Exists_cons in Hex as [Hh|Hex]; [|contradiction].
      exists 0%nat, m. split; [reflexivity|]. split; [exact Hh|].
      rewrite applySaves_other; [subst h; apply lookup_insert_eq|].
      apply Forall_forall. intros m' Hm' E. apply Hout.
      apply Exists_exists. now exists m'.
Qed.


(** X21. On a keyed store, after a fulfilled [persist] the row under the
    request hash of an event of the batch is a record resolved for an
    event of the batch with that hash: the event's own record when no
    other event carries the hash, one of the candidates otherwise. *)
Theorem persist_row_is_a_resolved_record
    (ts : list Transaction.t) (s : StakeRequestRepository.t)
    (ms : list StakeRequest.t) (i : nat) (t : Transaction.t) :
  keyed s ->
  settlement (persist ts s) = Fulfilled ms ->
  ts !! i = Some t ->
  (exists j t' m,
      ts !! j = Some t'
      /\ Transaction.stakeRequestHash t' = Transaction.stakeRequestHash t
      /\ ms !! j = Some m
      /\ StakeRequestRepository.rows (storeAfter (persist ts s))
           !! Transaction.stakeRequestHash t = Some m)
  /\ ((forall j t', ts !! j = Some t' ->
         Transaction.stakeRequestHash t' = Transaction.stakeRequestHash t ->
         j = i) ->
      StakeRequestRepository.rows (storeAfter (persist ts s))
        !! Transaction.stakeRequestHash t = ms !! i).
Proof.
  intros Hk Hms Hi.
  destruct (persist_fulfilled newBigNumber Web3Utils_toChecksumAddress ts s ms Hms)
    as (Hall & Hok & _ & Hstore).
  apply resolved_records in Hall.
  assert (Hhash : forall j t' m, ts !! j = Some t' -> ms !! j = Some m ->
                  StakeRequest.stakeRequestHash m = Transaction.stakeRequestHash t').
  { intros j t' m Hj Hm.
    destruct (Forall2_lookup_l _ _ _ _ _ Hall Hj) as (m' & Hm' & a & _ & _ & ->).
    rewrite Hm in Hm'. injection Hm' as ->.
    apply (reconciled_hash newBigNumber t' s a Hk). }
  assert (Hfirst : exists j t' m,
             ts !! j = Some t'
             /\ Transaction.stakeRequestHash t' = Transaction.stakeRequestHash t
             /\ ms !! j = Some m
             /\ StakeRequestRepository.rows (storeAfter (persist ts s))
                  !! Transaction.stakeRequestHash t = Some m).
  { destruct (Forall2_lookup_l _ _ _ _ _ Hall Hi) as (mi & Hmi & _).
    destruct (applySaves_some (StakeRequestRepository.saveFails s) ms
                (StakeRequestRepository.rows s)
                (Transaction.stakeRequestHash t) Hok) as (j & r & Hj & Hr & Hrow).
    { apply Exists_exists. exists mi.
      split; [now apply list_elem_of_lookup_2 in Hmi | now apply (Hhash i t)]. }
    destruct (Forall2_lookup_r _ _ _ _ _ Hall Hj) as (t' & Ht' & _).
    exists j, t', r. split; [exact Ht'|].
    split; [now rewrite <- (Hhash j t' r Ht' Hj)|].
    split; [exact Hj|]. now rewrite Hstore. }
  split; [exact Hfirst|].
  intros Huniq. destruct Hfirst as (j & t' & m & Ht' & Hh & Hm & Hrow).
  rewrite (Huniq j t' Ht' Hh) in Hm. now rewrite Hrow, Hm.
Qed.


End Further.

(** ** [Utils.getDefinedOwnProps] *)

(** The loop started on [acc] appends to it what it collects from
    nothing. *)
Lemma getDefinedOwnProps_from (obj : list (string * Utils.Value))
    (acc : list string) :
  fold_left
    (fun props entry =>
       let '(key, value) := entry in
       if Utils.defined value then props ++ [key] else props)
    obj acc
  = acc ++ Utils.getDefinedOwnProps obj.
Proof.
  unfold Utils.getDefinedOwnProps. revert acc.
  induction obj as [|[k v] obj IH]; intros acc; cbn [fold_left].
  - now rewrite app_nil_r.
  - rewrite (IH (if Utils.defined v then acc ++ [k] else acc)).
    rewrite (IH (if Utils.defined v then [] ++ [k] else [])).
    destruct (Utils.defined v); [|reflexivity].
    now rewrite <- !app_assoc.
Qed.

Lemma getDefinedOwnProps_cons (k : string) (v : Utils.Value)
    (obj : list (string * Utils.Value)) :
  Utils.getDefinedOwnProps ((k, v) :: obj)
  = if Utils.defined v then k :: Utils.getDefinedOwnProps obj
    else Utils.getDefinedOwnProps obj.
Proof.
  unfold Utils.getDefinedOwnProps at 1. cbn [fold_left].
  rewrite getDefinedOwnProps_from. now destruct (Utils.defined v).
Qed.

Lemma defined_iff (v : Utils.Value) :
  Utils.defined v = true <-> v <> Utils.Undefined.
Proof. destruct v; cbn; split; congruence. Qed.

Lemma getDefinedOwnProps_elem (obj : list (string * Utils.Value))
    (key : string) :
  key ∈ Utils.getDefinedOwnProps obj
  <-> exists value, (key, value) ∈ obj /\ value <> Utils.Undefined.
Proof.
  induction obj as [|[k v] obj IH].
  - cbn. split; [intros H; now apply elem_of_nil in H|].
    intros (v & H & _). now apply elem_of_nil in H.
  - rewrite getDefinedOwnProps_cons. split.
    + intros H. destruct (Utils.defined v) eqn:E.
      * apply elem_of_cons in H as [->|H].
        -- exists v. split; [apply list_elem_of_here | now apply defined_iff].
        -- apply IH in H as (v' & H & Hv). exists v'.
           split; [now apply list_elem_of_further | exact Hv].
      * apply IH in H as (v' & H & Hv). exists v'.
        split; [now apply list_elem_of_further | exact Hv].
    + intros (v' & H & Hv). apply elem_of_cons in H as [[= -> ->]|H].
      * apply defined_iff in Hv. rewrite Hv. apply list_elem_of_here.
      * assert (Hin : key ∈ Utils.getDefinedOwnProps obj)
          by (apply IH; now exists v').
        destruct (Utils.defined v); [now apply list_elem_of_further | exact Hin].
Qed.

Lemma getDefinedOwnProps_sublist (obj : list (string * Utils.Value)) :
  sublist (Utils.getDefinedOwnProps obj) (map fst obj).
Proof.
  induction obj as [|[k v] obj IH]; [constructor|].
  rewrite getDefinedOwnProps_cons. cbn [map fst].
  destruct (Utils.defined v); [now apply sublist_skip | now apply sublist_cons].
Qed.

(** X15. [getDefinedOwnProps] lists a key exactly when the object has the
    property with a value other than [undefined]; a property holding
    [null] is listed. *)
Theorem getDefinedOwnProps_lists_defined_keys
    (obj : list (string * Utils.Value)) (key : string) :
  (key ∈ Utils.getDefinedOwnProps obj
   <-> exists value, (key, value) ∈ obj /\ value <> Utils.Undefined)
  /\ ((key, Utils.Null) ∈ obj -> key ∈ Utils.getDefinedOwnProps obj).
Proof.
  split; [apply getDefinedOwnProps_elem|].
  intros H. apply getDefinedOwnProps_elem. now exists Utils.Null.
Qed.

(** X16. [getDefinedOwnProps] keeps the order of the properties and lists
    no key twice: its result is the object's keys with some left out. *)
Theorem getDefinedOwnProps_keeps_order
    (obj : list (string * Utils.Value)) :
  sublist (Utils.getDefinedOwnProps obj) (map fst obj)
  /\ (NoDup (map fst obj) -> NoDup (Utils.getDefinedOwnProps obj)).
Proof.
  split; [apply getDefinedOwnProps_sublist|].
  intros H. eapply sublist_NoDup; [exact H | apply getDefinedOwnProps_sublist].
Qed.

(** X17. [getDefinedOwnProps] returns all the keys exactly when no
    property is [undefined], and no key exactly when all are. *)
Theorem getDefinedOwnProps_all_or_none
    (obj : list (string * Utils.Value)) :
  (Utils.getDefinedOwnProps obj = map fst obj
   <-> Forall (fun entry => entry.2 <> Utils.Undefined) obj)
  /\ (Utils.getDefinedOwnProps obj = []
      <-> Forall (fun entry => entry.2 = Utils.Undefined) obj).
Proof.
  split.
  - induction obj as [|[k v] obj IH]; [split; [constructor | reflexivity]|].
    rewrite getDefinedOwnProps_cons. cbn [map fst]. split.
    + intros H. destruct (Utils.defined v) eqn:E.
      * injection H as H. constructor; [now apply defined_iff | now apply IH].
      * pose proof (sublist_length _ _ (getDefinedOwnProps_sublist obj)) as Hl.
        rewrite H in Hl. cbn in Hl. lia.
    + intros H. apply Forall_cons_1 in H as [Hv H]. cbn in Hv.
      apply defined_iff in Hv. rewrite Hv. f_equal. now apply IH.
  - induction obj as [|[k v] obj IH]; [split; [constructor | reflexivity]|].
    rewrite getDefinedOwnProps_cons. split.
    + intros H. destruct (Utils.defined v) eqn:E; [discriminate|].
      constructor; [now destruct v | now apply IH].
    + intros H. apply Forall_cons_1 in H as [Hv H]. cbn in Hv. subst v.
      cbn. now apply IH.
Qed.

Lemma filter_all {A} (P : A -> Prop) `{!forall x, Decision (P x)}
    (l : list A) :
  Forall P l -> filter P l = l.
Proof.
  induction 1 as [|x l Hx _ IH]; [reflexivity|].
  now rewrite filter_cons, decide_True, IH by exact Hx.
Qed.

(** X18. Assigning [undefined] to a property, as the handler does to
    [messageHash], takes exactly that key out of what
    [getDefinedOwnProps] lists and leaves the other keys in their order;
    assigning any other value makes the key listed. *)
Theorem getDefinedOwnProps_after_assign
    (obj : list (string * Utils.Value)) (key : string) :
  NoDup (map fst obj) ->
  Utils.getDefinedOwnProps (Utils.assign key Utils.Undefined obj)
  = filter (fun k => k <> key) (Utils.getDefinedOwnProps obj)
  /\ (forall value, value <> Utils.Undefined ->
        key ∈ Utils.getDefinedOwnProps (Utils.assign key value obj)).
Proof.
  intros Hnd. split.
  - induction obj as [|[k v] obj IH]; [reflexivity|].
    cbn [map fst] in Hnd. apply NoDup_cons in Hnd as [Hk Hnd].
    cbn [Utils.assign]. destruct (String.eqb_spec k key) as [->|Hne].
    + rewrite !getDefinedOwnProps_cons. cbn [Utils.defined].
      assert (Hid : filter (fun k => k <> key) (Utils.getDefinedOwnProps obj)
                    = Utils.getDefinedOwnProps obj).
      { apply filter_all. apply Forall_forall. intros k' Hk' ->.
        apply Hk. eapply elem_of_sublist; [exact Hk'|].
        apply getDefinedOwnProps_sublist. }
      destruct (Utils.defined v); [|now rewrite Hid].
      rewrite filter_cons, decide_False by (intros H; now apply H).
      now rewrite Hid.
    + rewrite !getDefinedOwnProps_cons, IH by exact Hnd.
      destruct (Utils.defined v); [|reflexivity].
      now rewrite filter_cons, decide_True by exact Hne.
  - intros value Hv. clear Hnd. apply defined_iff in Hv.
    induction obj as [|[k v] obj IH].
    + cbn [Utils.assign]. rewrite getDefinedOwnProps_cons, Hv.
      apply list_elem_of_here.
    + cbn [Utils.assign]. destruct (String.eqb_spec k key) as [->|Hne].
      * rewrite getDefinedOwnProps_cons, Hv. apply list_elem_of_here.
      * rewrite getDefinedOwnProps_cons.
        destruct (Utils.defined v); [now apply list_elem_of_further | exact IH].
Qed.

(** ** [Utils.toChecksumAddress] over web3-utils *)

Lemma toLowerCase_idem (c : ascii) :
  Web3Utils.toLowerCase (Web3Utils.toLowerCase c) = Web3Utils.toLowerCase c.
Proof. destruct c as [[] [] [] [] [] [] [] []]; reflexivity. Qed.

Lemma toLowerCase_toUpperCase (c : ascii) :
  Web3Utils.toLowerCase (Web3Utils.toUpperCase c) = Web3Utils.toLowerCase c.
Proof. destruct c as [[] [] [] [] [] [] [] []]; reflexivity. Qed.

Lemma isHexDigit_toLowerCase (c : ascii) :
  Web3Utils.isHexDigit (Web3Utils.toLowerCase c) = Web3Utils.isHexDigit c.
Proof. destruct c as [[] [] [] [] [] [] [] []]; reflexivity. Qed.

Lemma isHexDigit_toUpperCase (c : ascii) :
  Web3Utils.isHexDigit (Web3Utils.toUpperCase c) = Web3Utils.isHexDigit c.
Proof. destruct c as [[] [] [] [] [] [] [] []]; reflexivity. Qed.

(** Lower-casing does not make or unmake a [0x] prefix. *)
Lemma stripHexPrefix_toLowerCase (l : list ascii) :
  Web3Utils.stripHexPrefix (map Web3Utils.toLowerCase l)
  = map Web3Utils.toLowerCase (Web3Utils.stripHexPrefix l).
Proof.
  destruct l as [|c1 [|c2 rest]]; [reflexivity| |].
  - destruct c1 as [[] [] [] [] [] [] [] []]; reflexivity.
  - destruct c1 as [[] [] [] [] [] [] [] []]; try reflexivity.
    destruct c2 as [[] [] [] [] [] [] [] []]; reflexivity.
Qed.

Lemma map_toLowerCase_imap (g : nat -> ascii -> ascii) (l : list ascii) :
  (forall i c, Web3Utils.toLowerCase (g i c) = Web3Utils.toLowerCase c) ->
  map Web3Utils.toLowerCase (imap g l) = map Web3Utils.toLowerCase l.
Proof.
  revert g. induction l as [|c l IH]; intros g Hg; [reflexivity|].
  cbn. rewrite Hg. f_equal. apply IH. intros i c'. apply Hg.
Qed.

Lemma forallb_isHexDigit_imap (g : nat -> ascii -> ascii) (l : list ascii) :
  (forall i c, Web3Utils.isHexDigit (g i c) = Web3Utils.isHexDigit c) ->
  forallb Web3Utils.isHexDigit (imap g l) = forallb Web3Utils.isHexDigit l.
Proof.
  revert g. induction l as [|c l IH]; intros g Hg; [reflexivity|].
  cbn. rewrite Hg. f_equal. apply IH. intros i c'. apply Hg.
Qed.

Lemma forallb_isHexDigit_lower (l : list ascii) :
  forallb Web3Utils.isHexDigit (map Web3Utils.toLowerCase l)
  = forallb Web3Utils.isHexDigit l.
Proof.
  induction l as [|c l IH]; [reflexivity|].
  cbn. now rewrite isHexDigit_toLowerCase, IH.
Qed.

Lemma map_toLowerCase_idem (l : list ascii) :
  map Web3Utils.toLowerCase (map Web3Utils.toLowerCase l)
  = map Web3Utils.toLowerCase l.
Proof.
  induction l as [|c l IH]; [reflexivity|].
  cbn. now rewrite toLowerCase_idem, IH.
Qed.

(** Whether a string is an address is read off its digits. *)
Lemma isAddress_digits (address : string) :
  Web3Utils.isAddress (list_ascii_of_string address)
  = (length (addressDigits address) =? 40)%nat
    && forallb Web3Utils.isHexDigit (addressDigits address).
Proof.
  unfold Web3Utils.isAddress, addressDigits.
  rewrite stripHexPrefix_toLowerCase, forallb_isHexDigit_lower.
  now rewrite length_map.
Qed.

(** [toChecksumAddress] in terms of the digits. *)
Lemma toChecksumAddress_digits (address : string) :
  Web3Utils.toChecksumAddress address =
  if (length (addressDigits address) =? 40)%nat
     && forallb Web3Utils.isHexDigit (addressDigits address)
  then Fulfilled
         (string_of_list_ascii
            ("0"%char :: "x"%char ::
             imap (fun i c =>
                     if 7 <? Web3Utils.nibble
                               (Web3Utils.sha3 (addressDigits address)) i
                     then Web3Utils.toUpperCase c else c)
                  (addressDigits address)))
  else Rejected (InvalidAddress address).
Proof.
  unfold Web3Utils.toChecksumAddress. now rewrite isAddress_digits.
Qed.

(** The digits of a string that starts with [0x]. *)
Lemma addressDigits_prefixed (body : list ascii) :
  addressDigits (string_of_list_ascii ("0"%char :: "x"%char :: body))
  = map Web3Utils.toLowerCase body.
Proof.
  unfold addressDigits. now rewrite list_ascii_of_string_of_list_ascii.
Qed.

(** The digits of a normalized address are the digits it was made from. *)
Lemma addressDigits_normalized (address out : string) :
  Web3Utils.toChecksumAddress address = Fulfilled out ->
  addressDigits out = addressDigits address.
Proof.
  rewrite toChecksumAddress_digits.
  destruct (_ && _); [|discriminate]. intros [= <-].
  etransitivity; [exact (addressDigits_prefixed _)|].
  rewrite map_toLowerCase_imap.
  - unfold addressDigits. rewrite stripHexPrefix_toLowerCase.
    apply map_toLowerCase_idem.
  - intros i c. destruct (7 <? _); [apply toLowerCase_toUpperCase | reflexivity].
Qed.

(** Strings with the same digits normalize alike. *)
Lemma toChecksumAddress_same_digits (a1 a2 out : string) :
  addressDigits a1 = addressDigits a2 ->
  Web3Utils.toChecksumAddress a1 = Fulfilled out ->
  Web3Utils.toChecksumAddress a2 = Fulfilled out.
Proof.
  intros E. rewrite !toChecksumAddress_digits, E.
  now destruct (_ && _).
Qed.

(** X19. A normalized address is a fixed point of [toChecksumAddress]:
    normalizing changes the case of letters and the [0x] only, never a
    digit, and normalizing the result again returns it unchanged. *)
Theorem toChecksumAddress_is_canonical (address out : string) :
  Web3Utils.toChecksumAddress address = Fulfilled out ->
  addressDigits out = addressDigits address
  /\ Web3Utils.toChecksumAddress out = Fulfilled out.
Proof.
  intros H. pose proof (addressDigits_normalized address out H) as E.
  split; [exact E|].
  now apply (toChecksumAddress_same_digits address out out).
Qed.

(** X20. [toChecksumAddress] does not depend on how its argument is
    spelled: two strings with the same digits, whatever the case of their
    letters and with or without the [0x], normalize to the same string, or
    both throw. *)
Theorem toChecksumAddress_ignores_spelling (a1 a2 : string) :
  addressDigits a1 = addressDigits a2 ->
  (forall out, Web3Utils.toChecksumAddress a1 = Fulfilled out
               <-> Web3Utils.toChecksumAddress a2 = Fulfilled out)
  /\ isRejected (Web3Utils.toChecksumAddress a1)
     = isRejected (Web3Utils.toChecksumAddress a2).
Proof.
  intros E. split.
  - intros out. split; now apply toChecksumAddress_same_digits.
  - rewrite !toChecksumAddress_digits, E. now destruct (_ && _).
Qed.

(** ** The further properties on the sample data *)

Lemma linkedStore_keyed : keyed Scenario.linkedStore.
Proof.
  intros k r H. unfold Scenario.linkedStore in H.
  cbn [StakeRequestRepository.rows] in H.
  now apply lookup_singleton_Some in H as [<- <-].
Qed.

Lemma linkedStore_numbered : numbered Scenario.linkedStore.
Proof.
  intros k r H. unfold Scenario.linkedStore in H.
  cbn [StakeRequestRepository.rows] in H.
  apply lookup_singleton_Some in H as [_ <-]. now eexists.
Qed.

Lemma emptyStore_numbered : numbered Scenario.emptyStore.
Proof. intros k r H. cbn in H. now rewrite lookup_empty in H. Qed.

Lemma persist_resolves_each_event_alone_witness :
  settlement (Scenario.run [Scenario.sighting; Scenario.laterSighting]
                Scenario.linkedStore)
  = Fulfilled [StakeRequest.setMessageHash None Scenario.linked;
               StakeRequest.setMessageHash None
                 (StakeRequest.setBlockNumber (Some (BigNumber.Finite 105 0))
                    Scenario.linked)]
  /\ settlement (Scenario.run [Scenario.laterSighting] Scenario.linkedStore)
     = Fulfilled [StakeRequest.setMessageHash None
                    (StakeRequest.setBlockNumber (Some (BigNumber.Finite 105 0))
                       Scenario.linked)].
Proof.
  assert (Hms : settlement (Scenario.run [Scenario.sighting; Scenario.laterSighting]
                              Scenario.linkedStore)
                = Fulfilled [StakeRequest.setMessageHash None Scenario.linked;
                             StakeRequest.setMessageHash None
                               (StakeRequest.setBlockNumber
                                  (Some (BigNumber.Finite 105 0)) Scenario.linked)])
    by (vm_compute; reflexivity).
  split; [exact Hms|].
  destruct (persist_resolves_each_event_alone
              BigNumber.ofString Web3Utils.toChecksumAddress
              [Scenario.sighting; Scenario.laterSighting] Scenario.linkedStore
              _ 1 Scenario.laterSighting Hms eq_refl) as (m & Hm & H).
  injection Hm as <-. exact H.
Defined.

Lemma persist_failed_get_writes_nothing_witness :
  Get "0xBB" false
    ∈ trace (Scenario.run [Scenario.sighting; Scenario.otherSighting]
               Sample.unreadableStore)
  /\ isRejected (settlement (Scenario.run [Scenario.sighting; Scenario.otherSighting]
                               Sample.unreadableStore)) = true
  /\ saved (trace (Scenario.run [Scenario.sighting; Scenario.otherSighting]
                     Sample.unreadableStore)) = []
  /\ storeAfter (Scenario.run [Scenario.sighting; Scenario.otherSighting]
                   Sample.unreadableStore) = Sample.unreadableStore.
Proof.
  assert (Hin : Get "0xBB" false
                  ∈ trace (Scenario.run [Scenario.sighting; Scenario.otherSighting]
                             Sample.unreadableStore)).
  { vm_compute. do 2 apply list_elem_of_further. apply list_elem_of_here. }
  split; [exact Hin|].
  exact (persist_failed_get_writes_nothing
           BigNumber.ofString Web3Utils.toChecksumAddress
           [Scenario.sighting; Scenario.otherSighting] Sample.unreadableStore
           "0xBB" Hin).
Defined.

Lemma persist_keeps_completed_saves_witness :
  isRejected (settlement (Scenario.run [Scenario.sighting; Scenario.otherSighting]
                            Scenario.failingStore)) = true
  /\ StakeRequestRepository.rows
       (storeAfter (Scenario.run [Scenario.sighting; Scenario.otherSighting]
                      Scenario.failingStore)) !! "0xAA"
     = Some (StakeRequest.setMessageHash None Scenario.linked).
Proof.
  split; [vm_compute; reflexivity|].
  apply (persist_keeps_completed_saves
           BigNumber.ofString Web3Utils.toChecksumAddress
           [Scenario.sighting; Scenario.otherSighting] Scenario.failingStore
           0 (StakeRequest.setMessageHash None Scenario.linked)).
  - vm_compute. reflexivity.
  - reflexivity.
  - intros [|[|j]] m' Hj Hh; vm_compute in Hj.
    + reflexivity.
    + injection Hj as <-. discriminate Hh.
    + discriminate Hj.
Defined.

Lemma persist_records_event_block_number_witness :
  StakeRequest.blockNumber Scenario.linked = Some (BigNumber.Finite 1 2)
  /\ StakeRequest.blockNumber
       (StakeRequest.setMessageHash None
          (StakeRequest.setBlockNumber (Some (BigNumber.Finite 105 0))
             Scenario.linked))
     = Some (BigNumber.ofString (Transaction.blockNumber Scenario.laterSighting)).
Proof.
  split; [reflexivity|].
  apply (persist_records_event_block_number
           BigNumber.ofString Web3Utils.toChecksumAddress
           [Scenario.laterSighting] Scenario.linkedStore
           [StakeRequest.setMessageHash None
              (StakeRequest.setBlockNumber (Some (BigNumber.Finite 105 0))
                 Scenario.linked)] 0 Scenario.laterSighting);
    [vm_compute; reflexivity | reflexivity | reflexivity].
Defined.

Lemma persist_records_event_hash_witness :
  StakeRequest.stakeRequestHash
    (StakeRequest.setMessageHash None
       (StakeRequest.setBlockNumber (Some (BigNumber.Finite 105 0))
          Scenario.linked))
  = Transaction.stakeRequestHash Scenario.laterSighting.
Proof.
  apply (persist_records_event_hash
           BigNumber.ofString Web3Utils.toChecksumAddress
           [Scenario.laterSighting] Scenario.linkedStore
           [StakeRequest.setMessageHash None
              (StakeRequest.setBlockNumber (Some (BigNumber.Finite 105 0))
                 Scenario.linked)] 0 Scenario.laterSighting);
    [exact linkedStore_keyed | vm_compute; reflexivity | reflexivity | reflexivity].
Defined.


Lemma persist_keeps_store_numbered_witness :
  numbered (storeAfter (Scenario.run [Scenario.laterSighting; Scenario.otherSighting]
                          Scenario.linkedStore)).
Proof.
  exact (persist_keeps_store_numbered
           BigNumber.ofString Web3Utils.toChecksumAddress
           [Scenario.laterSighting; Scenario.otherSighting]
           Scenario.linkedStore linkedStore_numbered).
Defined.

Lemma persistEach_assertion_never_violated_witness :
  NonNullAssertion true
    ∈ (persistEach BigNumber.ofString Web3Utils.toChecksumAddress
         [[Scenario.sighting]; [Scenario.laterSighting; Scenario.otherSighting];
          [Scenario.sighting]] Scenario.emptyStore).1
  /\ violated (NonNullAssertion true) = false.
Proof.
  assert (Hin : NonNullAssertion true
                  ∈ (persistEach BigNumber.ofString Web3Utils.toChecksumAddress
                       [[Scenario.sighting];
                        [Scenario.laterSighting; Scenario.otherSighting];
                        [Scenario.sighting]] Scenario.emptyStore).1).
  { vm_compute. do 3 apply list_elem_of_further. apply list_elem_of_here. }
  split; [exact Hin|].
  exact (persistEach_assertion_never_violated
           BigNumber.ofString Web3Utils.toChecksumAddress _ _ _
           emptyStore_numbered Hin).
Defined.

Lemma persist_leaves_other_rows_witness :
  StakeRequestRepository.rows
    (storeAfter (Scenario.run [Scenario.otherSighting] Scenario.linkedStore))
    !! "0xAA" = Some Scenario.linked.
Proof.
  etransitivity; [|reflexivity].
  apply (persist_leaves_other_rows
           BigNumber.ofString Web3Utils.toChecksumAddress
           [Scenario.otherSighting] Scenario.linkedStore "0xAA"
           linkedStore_keyed).
  intros t Ht. apply list_elem_of_singleton in Ht as ->. discriminate.
Defined.

Lemma persist_unordered_block_numbers_rebuild_witness :
  exists m,
    settlement (Scenario.run [Scenario.laterSighting] Sample.unnumberedStore)
    = Fulfilled [m]
    /\ builtFromEvent BigNumber.ofString Web3Utils.toChecksumAddress
         Scenario.laterSighting m.
Proof.
  eexists. split; [vm_compute; reflexivity|].
  eapply (persist_unordered_block_numbers_rebuild
           BigNumber.ofString Web3Utils.toChecksumAddress
           [Scenario.laterSighting] Sample.unnumberedStore _ 0
           Scenario.laterSighting Scenario.unnumbered).
  - reflexivity.
  - vm_compute. reflexivity.
  - left. reflexivity.
  - vm_compute. reflexivity.
  - reflexivity.
Defined.

Lemma persist_same_event_after_rearm_rebuilds_witness :
  StakeRequest.amount Scenario.linked = BigNumber.Finite 1 1
  /\ exists m2,
       settlement (Scenario.run [Scenario.laterSighting]
                     (storeAfter (Scenario.run [Scenario.laterSighting]
                                    Scenario.linkedStore)))
       = Fulfilled [m2]
       /\ StakeRequest.amount m2 = BigNumber.Finite 99 0.
Proof.
  split; [reflexivity|].
  destruct (persist_same_event_after_rearm_rebuilds
              BigNumber.ofString Web3Utils.toChecksumAddress
              Scenario.laterSighting Scenario.linkedStore Scenario.linked
              (BigNumber.Finite 1 2)
              [StakeRequest.setMessageHash None
                 (StakeRequest.setBlockNumber (Some (BigNumber.Finite 105 0))
                    Scenario.linked)])
    as (m2 & H1 & (_ & Ham & _) & _); try (vm_compute; reflexivity).
  exists m2. split; [exact H1|]. rewrite Ham. vm_compute. reflexivity.
Defined.

Lemma getDefinedOwnProps_after_assign_witness :
  Utils.getDefinedOwnProps Sample.record
  = ["stakeRequestHash"; "amount"; "beneficiary"; "blockNumber";
     "messageHash"; "createdAt"]
  /\ Utils.getDefinedOwnProps
       (Utils.assign "messageHash" Utils.Undefined Sample.record)
     = ["stakeRequestHash"; "amount"; "beneficiary"; "blockNumber"; "createdAt"].
Proof.
  split; [vm_compute; reflexivity|].
  assert (Hnd : NoDup (map fst Sample.record))
    by (apply (bool_decide_unpack _); vm_compute; exact I).
  rewrite (proj1 (getDefinedOwnProps_after_assign Sample.record "messageHash" Hnd)).
  vm_compute. reflexivity.
Defined.

Lemma toChecksumAddress_is_canonical_witness :
  Web3Utils.toChecksumAddress Scenario.beneficiary
  = Fulfilled "0x5aAeb6053F3E94C9b9A09f33669435E7Ef1BeAed"
  /\ Web3Utils.toChecksumAddress "0x5aAeb6053F3E94C9b9A09f33669435E7Ef1BeAed"
     = Fulfilled "0x5aAeb6053F3E94C9b9A09f33669435E7Ef1BeAed".
Proof.
  assert (H : Web3Utils.toChecksumAddress Scenario.beneficiary
              = Fulfilled "0x5aAeb6053F3E94C9b9A09f33669435E7Ef1BeAed")
    by (vm_compute; reflexivity).
  split; [exact H|].
  exact (proj2 (toChecksumAddress_is_canonical _ _ H)).
Defined.

Lemma toChecksumAddress_ignores_spelling_witness :
  addressDigits "5AAEB6053F3E94C9B9A09F33669435E7EF1BEAED"
  = addressDigits Scenario.beneficiary
  /\ Web3Utils.toChecksumAddress "5AAEB6053F3E94C9B9A09F33669435E7EF1BEAED"
     = Fulfilled "0x5aAeb6053F3E94C9b9A09f33669435E7Ef1BeAed".
Proof.
  assert (E : addressDigits "5AAEB6053F3E94C9B9A09F33669435E7EF1BEAED"
              = addressDigits Scenario.beneficiary)
    by (vm_compute; reflexivity).
  split; [exact E|].
  apply (proj1 (toChecksumAddress_ignores_spelling _ _ E)).
  vm_compute. reflexivity.
Defined.

Lemma persist_reads_addresses_normalized_only_witness :
  Transaction.beneficiary Sample.shouted <> Transaction.beneficiary Scenario.sighting
  /\ Scenario.run [Sample.shouted; Scenario.otherSighting] Scenario.linkedStore
     = Scenario.run [Scenario.sighting; Scenario.otherSighting] Scenario.linkedStore.
Proof.
  split; [discriminate|].
  apply (persist_reads_addresses_normalized_only
           BigNumber.ofString Web3Utils.toChecksumAddress
           [Sample.shouted; Scenario.otherSighting]
           [Scenario.sighting; Scenario.otherSighting] Scenario.linkedStore).
  repeat constructor; vm_compute; reflexivity.
Defined.

Lemma persist_row_is_a_resolved_record_witness :
  exists j t' m,
    [Scenario.sighting; Scenario.laterSighting] !! j = Some t'
    /\ Transaction.stakeRequestHash t' = "0xAA"
    /\ [StakeRequest.setMessageHash None Scenario.linked;
        StakeRequest.setMessageHash None
          (StakeRequest.setBlockNumber (Some (BigNumber.Finite 105 0))
             Scenario.linked)] !! j = Some m
    /\ StakeRequestRepository.rows
         (storeAfter (Scenario.run [Scenario.sighting; Scenario.laterSighting]
                        Scenario.linkedStore)) !! "0xAA" = Some m.
Proof.
  apply (proj1 (persist_row_is_a_resolved_record
                  BigNumber.ofString Web3Utils.toChecksumAddress
                  [Scenario.sighting; Scenario.laterSighting]
                  Scenario.linkedStore _ 0 Scenario.sighting
                  linkedStore_keyed ltac:(vm_compute; reflexivity) eq_refl)).
Defined.

